(** * Slack slash-command pipeline: [src/slack/monitor/slash.ts]

    A shallow embedding of [handleSlashCommand], the closure that
    [registerSlackMonitorSlashCommands] installs for every slash command.
    The handler is an [async] function that talks to the Slack transport
    ([ack], [respond]), to the monitor context ([resolveChannelName],
    [resolveUserName]), to the pairing store, and to the reply dispatcher.
    Each of those calls is an observable event; the handler is embedded in a
    small monad that records a trace of events and carries the three ways a
    JavaScript statement sequence can end (fall through, [return], [throw]).

    Every asynchronous collaborator may reject, and may answer differently
    each time it is called.  The dispatcher may call back any finite number
    of times before it settles.  The registration code of lines 275-305,
    which derives [prompt] and installs the handler, is embedded as the list
    of registrations it makes. *)

From Stdlib Require Import Floats.PrimFloat.
From Stdlib Require Import NArith ZArith List Bool Lia String Ascii.
From stdpp Require Import base option list gmap.
Import ListNotations.

Set Implicit Arguments.
Unset Strict Implicit.

(** ** JavaScript strings

    A string is its sequence of UTF-16 code units. *)

Abbreviation jsstr := (list N).

Definition lit (s : string) : jsstr :=
  List.map N_of_ascii (list_ascii_of_string s).
Arguments lit s%_string.

(** [WhiteSpace] and [LineTerminator] of ECMA-262, the code points that
    [String.prototype.trim] strips; all of them are single code units. *)
Definition isWhiteSpace (c : N) : bool :=
  ((c =? 9) || (c =? 10) || (c =? 11) || (c =? 12) || (c =? 13)
   || (c =? 32) || (c =? 160) || (c =? 5760)
   || ((8192 <=? c) && (c <=? 8202))
   || (c =? 8232) || (c =? 8233) || (c =? 8239) || (c =? 8287)
   || (c =? 12288) || (c =? 65279))%N.

Fixpoint trimStart (s : jsstr) : jsstr :=
  match s with
  | c :: s' => if isWhiteSpace c then trimStart s' else s
  | [] => []
  end.

Definition trimEnd (s : jsstr) : jsstr := rev (trimStart (rev s)).

Definition trim (s : jsstr) : jsstr := trimEnd (trimStart s).

(** [Boolean(s)] for a string: only the empty string is falsy. *)
Definition truthy (s : jsstr) : bool :=
  match s with [] => false | _ :: _ => true end.

(** [Boolean(x)] for [x : string | undefined | null]. *)
Definition truthyOpt (s : option jsstr) : bool :=
  match s with Some s => truthy s | None => false end.

(** [a === b] on strings. *)
Definition strEq (a b : jsstr) : bool := bool_decide (a = b).

(** [a === "literal"] where [a] may be [undefined]. *)
Definition optStrEq (a : option jsstr) (b : jsstr) : bool :=
  match a with Some a => strEq a b | None => false end.

(** [Array.prototype.join]. *)
Fixpoint join (sep : jsstr) (parts : list jsstr) : jsstr :=
  match parts with
  | [] => []
  | [p] => p
  | p :: rest => p ++ sep ++ join sep rest
  end.

(** [Array.prototype.indexOf] with strict equality; [None] stands for -1. *)
Fixpoint indexOf (l : list jsstr) (x : jsstr) : option nat :=
  match l with
  | [] => None
  | y :: l' => if strEq y x then Some 0 else S <$> indexOf l' x
  end.

(** [list.filter((entry, index, list) => f(entry, index, list))]. *)
Fixpoint filterIndexedFrom (f : jsstr -> nat -> bool) (i : nat) (l : list jsstr)
  : list jsstr :=
  match l with
  | [] => []
  | x :: l' =>
      if f x i then x :: filterIndexedFrom f (S i) l'
      else filterIndexedFrom f (S i) l'
  end.

Definition filterIndexed (f : jsstr -> nat -> list jsstr -> bool) (l : list jsstr)
  : list jsstr :=
  filterIndexedFrom (fun x i => f x i l) 0 l.

(** ** Data model *)

(** The fields of Bolt's [SlashCommand] that the handler reads.  [user_name]
    is read through [??] and is therefore allowed to be absent. *)
Record SlashCommand := {
  user_id : jsstr;
  user_name : option jsstr;
  channel_id : jsstr;
  channel_name : jsstr;
  trigger_id : jsstr
}.

(** Argument of [respond], and of [ack] when it carries a message. *)
Record RespondArguments := {
  text : jsstr;
  response_type : jsstr
}.

Definition ephemeralText (s : string) : RespondArguments :=
  {| text := lit s; response_type := lit "ephemeral" |}.
Arguments ephemeralText s%_string.

(** Result of [ctx.resolveChannelName]: every field is optional. *)
Record ChannelInfo := {
  ci_name : option jsstr;
  ci_type : option jsstr;
  ci_topic : option jsstr;
  ci_purpose : option jsstr
}.

(** Result of [ctx.resolveUserName]. *)
Record UserInfo := { ui_name : option jsstr }.

(** One entry of the [channels] mapping of the process configuration. *)
Record ChannelConfig := {
  cfg_requireMention : option bool;
  cfg_allowed : option bool;
  cfg_users : option (list jsstr);
  cfg_systemPrompt : option jsstr;
  cfg_skills : option (list jsstr)
}.

(** [SlackChannelConfigResolved]. *)
Record SlackChannelConfigResolved := {
  allowed : bool;
  requireMention : bool;
  users : option (list jsstr);
  systemPrompt : option jsstr;
  skills : option (list jsstr)
}.

Record PairingRequest := {
  pr_channel : jsstr;
  pr_id : jsstr;
  pr_meta_name : option jsstr
}.

Record PairingResult := { code : jsstr; created : bool }.

Record Peer := { kind : jsstr; peer_id : jsstr }.

Record RouteQuery := {
  rq_channel : jsstr;
  rq_accountId : jsstr;
  rq_teamId : option jsstr;
  rq_peer : Peer
}.

Record AgentRoute := { agentId : jsstr; sessionKey : jsstr; accountId : jsstr }.

(** The [counts] the dispatcher settles with.  They are JavaScript numbers,
    that is IEEE 754 doubles: line 258 adds them as such and compares the sum
    with [0] by [===]. *)
Record Counts := { final : float; tool : float; block : float }.

(** The resolved slash-command settings ([resolveSlackSlashCommandConfig]). *)
Record SlashCommandConfig := {
  sc_enabled : bool;
  sc_name : jsstr;
  sc_sessionPrefix : jsstr;
  sc_ephemeral : bool
}.

(** A reply produced by the dispatcher; the handler only forwards it. *)
Record ReplyPayload := { reply_text : option jsstr }.

(** The context payload built at lines 212-237. *)
Record ContextPayload := {
  Body : jsstr;
  From_ : jsstr;
  To : jsstr;
  ChatType : jsstr;
  GroupSubject : option jsstr;
  GroupSystemPrompt : option jsstr;
  SenderName : jsstr;
  SenderId : jsstr;
  Provider : jsstr;
  Surface : jsstr;
  WasMentioned : bool;
  MessageSid : jsstr;
  Timestamp : Z;
  SessionKey : jsstr;
  CommandTargetSessionKey : jsstr;
  AccountId : jsstr;
  CommandSource : jsstr;
  CommandAuthorized : bool;
  OriginatingChannel : jsstr;
  OriginatingTo : jsstr
}.

(** Arguments of [dispatchReplyWithDispatcher] that are data; the two
    callbacks [deliver] and [onError] are the handler's own code and are
    embedded below. *)
Record DispatchArguments := {
  da_ctx : ContextPayload;
  da_responsePrefix : option jsstr;
  da_skillFilter : option (list jsstr)
}.

(** Arguments of [deliverSlackSlashReplies] ([respond] is the ambient one). *)
Record DeliverArguments := {
  replies : list ReplyPayload;
  dl_ephemeral : bool;
  dl_textLimit : Z
}.

(** A thrown value, known through [String(err)]. *)
Record exn := Exn { rendered : jsstr }.

(** How a call ends: a promise is fulfilled or rejected, a synchronous call
    returns or throws. *)
Inductive outcome (A : Type) : Type :=
| Fulfilled (a : A)
| Rejected (e : exn).
Arguments Rejected {A} e.

(** ** Events: the calls the handler makes, with what came back *)

Inductive event : Type :=
| EvAck (arg : option RespondArguments) (o : outcome unit)
| EvRespond (arg : RespondArguments) (o : outcome unit)
| EvResolveChannelName (channelId : jsstr) (o : outcome (option ChannelInfo))
| EvReadChannelAllowFromStore (channel : jsstr) (o : outcome (list jsstr))
| EvResolveUserName (userId : jsstr) (o : outcome (option UserInfo))
| EvUpsertChannelPairingRequest (req : PairingRequest) (o : outcome PairingResult)
| EvDispatchCall (args : DispatchArguments)
| EvDispatchSettled (o : outcome Counts)
| EvDeliver (args : DeliverArguments) (o : outcome unit)
| EvRuntimeError (msg : jsstr) (o : outcome unit).

Abbreviation trace := (list event).

(** ** Collaborators *)

(** What [dispatchReplyWithDispatcher] does between being called and
    settling: it may invoke the [deliver] and [onError] callbacks the handler
    passed in, any finite number of times, see how each callback ended, and
    finally settle with the counts or reject. *)
Inductive DispatchRun : Type :=
| DispatchDeliver (payload : ReplyPayload) (k : outcome unit -> DispatchRun)
| DispatchOnError (err : exn) (info_kind : jsstr) (k : outcome unit -> DispatchRun)
| DispatchSettle (o : outcome Counts).

(** The effectful collaborators.  Each one answers as a function of the
    events so far, so a collaborator may answer differently every time it is
    called.  [w_runtime_error] is [ctx.runtime.error], an optional member. *)
Record World := {
  w_ack : trace -> option RespondArguments -> outcome unit;
  w_respond : trace -> RespondArguments -> outcome unit;
  w_resolveChannelName : trace -> jsstr -> outcome (option ChannelInfo);
  w_resolveUserName : trace -> jsstr -> outcome (option UserInfo);
  w_readChannelAllowFromStore : trace -> jsstr -> outcome (list jsstr);
  w_upsertChannelPairingRequest : trace -> PairingRequest -> outcome PairingResult;
  w_dispatchReplyWithDispatcher : trace -> DispatchArguments -> DispatchRun;
  w_deliverSlackSlashReplies : trace -> DeliverArguments -> outcome unit;
  w_runtime_error : option (trace -> jsstr -> outcome unit);
  w_now : trace -> Z
}.

(** The synchronous helpers imported by [slash.ts] whose code lives in other
    modules.  They are parameters of the development: every theorem about
    the handler holds for all of them, taken as total functions.  The
    resolver's result may be [null], as the variable it is assigned to is
    declared [SlackChannelConfigResolved | null] and read through [?.].
    [responsePrefixFor agentId] stands for
    [resolveEffectiveMessagesConfig(cfg, agentId).responsePrefix], and
    [resolveAgentRoute] is closed over [cfg]. *)
Record Imports := {
  resolveSlackChannelConfig :
    jsstr -> option jsstr -> option (gmap jsstr ChannelConfig) -> option bool ->
    option SlackChannelConfigResolved;
  isSlackRoomAllowedByPolicy : jsstr -> bool -> bool -> bool;
  allowListMatches : list jsstr -> jsstr -> option jsstr -> bool;
  normalizeAllowList : list jsstr -> list jsstr;
  normalizeAllowListLower : list jsstr -> list jsstr;
  resolveSlackUserAllowed : option (list jsstr) -> jsstr -> jsstr -> bool;
  buildPairingReply : jsstr -> jsstr -> jsstr -> jsstr;
  resolveAgentRoute : RouteQuery -> AgentRoute;
  responsePrefixFor : jsstr -> option jsstr;
  danger : jsstr -> jsstr
}.

Record IsChannelAllowedArguments := {
  ica_channelId : jsstr;
  ica_channelName : option jsstr;
  ica_channelType : option jsstr
}.

(** The members of [SlackMonitorContext] read by the handler, other than the
    two asynchronous resolvers, which are in [World]. *)
Record SlackMonitorContext := {
  botUserId : option jsstr;
  teamId : option jsstr;
  allowFrom : list jsstr;
  dmEnabled : bool;
  dmPolicy : jsstr;
  channelsConfig : option (gmap jsstr ChannelConfig);
  defaultRequireMention : option bool;
  useAccessGroups : bool;
  groupPolicy : jsstr;
  textLimit : Z;
  isChannelAllowed : IsChannelAllowedArguments -> bool
}.

Record ResolvedSlackAccount := { acc_accountId : jsstr }.

(** The argument of [handleSlashCommand]; [ack] and [respond] are in
    [World]. *)
Record HandlerArguments := {
  command : SlashCommand;
  prompt : jsstr
}.

(** ** The monad of handler code *)

(** How a statement sequence ends. *)
Inductive completion (A : Type) : Type :=
| Normal (a : A)
| Return
| Throw (e : exn).
Arguments Return {A}.
Arguments Throw {A} e.

(** A computation reads the events so far (to ask the collaborators) and
    yields the events it adds, in order, with its completion. *)
Definition M (A : Type) : Type := trace -> trace * completion A.

Definition ret {A} (a : A) : M A := fun _ => ([], Normal a).

Definition bind {A B} (m : M A) (f : A -> M B) : M B :=
  fun h =>
    match m h with
    | (evs, Normal a) => let '(evs', c) := f a (h ++ evs) in (evs ++ evs', c)
    | (evs, Return) => (evs, Return)
    | (evs, Throw e) => (evs, Throw e)
    end.

(** The statement [return;]. *)
Definition return_ {A} : M A := fun _ => ([], Return).

(** [if (c) { m }]. *)
Definition when (c : bool) (m : M unit) : M unit := if c then m else ret tt.

(** One call of a collaborator: the event is recorded with its outcome, and a
    rejection is thrown at the [await]. *)
Definition awaited {A} (o : outcome A) : completion A :=
  match o with Fulfilled a => Normal a | Rejected e => Throw e end.

Definition perform {A} (ev : outcome A -> event) (oracle : trace -> outcome A) : M A :=
  fun h => let o := oracle h in ([ev o], awaited o).

(** [try { body } catch (err) { handler }]. *)
Definition tryCatch (body : M unit) (handler : exn -> M unit) : M unit :=
  fun h =>
    match body h with
    | (evs, Throw e) => let '(evs', c) := handler e (h ++ evs) in (evs ++ evs', c)
    | r => r
    end.

(** [promise.catch(() => fallback)]. *)
Definition catchPromise {A} (m : M A) (fallback : A) : M A :=
  fun h =>
    match m h with
    | (evs, Throw _) => (evs, Normal fallback)
    | r => r
    end.

(** How a callback handed to a collaborator ends, as the collaborator sees
    it. *)
Definition settle (m : M unit) : M (outcome unit) :=
  fun h =>
    match m h with
    | (evs, Throw e) => (evs, Normal (Rejected e))
    | (evs, _) => (evs, Normal (Fulfilled tt))
    end.

(** Calling an [async] function from an empty history: the promise it
    returns is fulfilled on fall-through and on [return], rejected on an
    uncaught [throw]. *)
Definition asyncCall (m : M unit) : trace * outcome unit :=
  match m [] with
  | (evs, Throw e) => (evs, Rejected e)
  | (evs, _) => (evs, Fulfilled tt)
  end.

Declare Scope js_scope.
Delimit Scope js_scope with js.
Notation "x <- m ;; k" := (bind m (fun x => k))
  (at level 100, m at next level, right associativity) : js_scope.
Notation "m ;; k" := (bind m (fun _ => k))
  (at level 100, right associativity) : js_scope.
Local Open Scope js_scope.

(** ** Expressions of the handler that do not call anybody *)

(** Lines 63-64: [channelInfo?.type ??
    (command.channel_name === "directmessage" ? "im" : undefined)]. *)
Definition channelTypeOf (channelInfo : option ChannelInfo) (cmd : SlashCommand)
  : option jsstr :=
  match channelInfo ≫= ci_type with
  | Some t => Some t
  | None => if strEq (channel_name cmd) (lit "directmessage") then Some (lit "im") else None
  end.

(** Lines 65-67. *)
Definition isDirectMessageType (channelType : option jsstr) : bool :=
  optStrEq channelType (lit "im").
Definition isGroupDmType (channelType : option jsstr) : bool :=
  optStrEq channelType (lit "mpim").
Definition isRoomType (channelType : option jsstr) : bool :=
  optStrEq channelType (lit "channel") || optStrEq channelType (lit "group").

(** Line 60: [ctx.botUserId && command.user_id === ctx.botUserId]. *)
Definition isSelfMessage (ctx : SlackMonitorContext) (cmd : SlashCommand) : bool :=
  match botUserId ctx with
  | Some bot => truthy bot && strEq (user_id cmd) bot
  | None => false
  end.

(** [channelConfig?.allowed === false]. *)
Definition allowedIsFalse (channelConfig : option SlackChannelConfigResolved) : bool :=
  match channelConfig with
  | Some c => negb (allowed c)
  | None => false
  end.

(** Lines 142-143: [Boolean(ctx.channelsConfig) &&
    Object.keys(ctx.channelsConfig ?? {}).length > 0]. *)
Definition channelAllowlistConfiguredOf (ctx : SlackMonitorContext) : bool :=
  bool_decide (is_Some (channelsConfig ctx))
  && bool_decide (0 < size (default (∅ : gmap jsstr ChannelConfig) (channelsConfig ctx))).

(** Lines 200-204: topic and purpose, trimmed, empty ones dropped, a repeated
    one kept once, joined by a newline. *)
Definition channelDescriptionOf (channelInfo : option ChannelInfo) : jsstr :=
  let entries := [channelInfo ≫= ci_topic; channelInfo ≫= ci_purpose] in
  let trimmed := List.map (fun entry => trim <$> entry) entries in
  let present := omap (fun entry => if truthyOpt entry then entry else None) trimmed in
  let unique :=
    filterIndexed (fun entry index l => bool_decide (indexOf l entry = Some index)) present in
  join (lit (String (ascii_of_nat 10) EmptyString)) unique.

(** Lines 205-210.  [x || null] keeps [x] only when it is truthy. *)
Definition groupSystemPromptOf (channelDescription : jsstr)
    (channelConfig : option SlackChannelConfigResolved) : option jsstr :=
  let configured := trim <$> (channelConfig ≫= systemPrompt) in
  let systemPromptParts :=
    omap (fun entry => if truthyOpt entry then entry else None)
      [ if truthy channelDescription
        then Some (lit "Channel description: " ++ channelDescription) else None;
        if truthyOpt configured then configured else None ] in
  if bool_decide (0 < length systemPromptParts)
  then Some (join (lit (String (ascii_of_nat 10) (String (ascii_of_nat 10) EmptyString)))
               systemPromptParts)
  else None.

(** Line 170: [sender?.name ?? command.user_name ?? command.user_id]. *)
Definition senderNameOf (sender : option UserInfo) (cmd : SlashCommand) : jsstr :=
  match sender ≫= ui_name with
  | Some n => n
  | None => match user_name cmd with Some n => n | None => user_id cmd end
  end.

(** ** The handler *)

Section registerSlackMonitorSlashCommands.

(** What the closure captures: the collaborators, the imported helpers,
    [ctx], [account], and the resolved [slashCommand] of lines 39-41. *)
Context (w : World) (lib : Imports) (ctx : SlackMonitorContext)
        (account : ResolvedSlackAccount) (slashCommand : SlashCommandConfig).

Definition ack (arg : option RespondArguments) : M unit :=
  perform (EvAck arg) (fun h => w_ack w h arg).

Definition respond (arg : RespondArguments) : M unit :=
  perform (EvRespond arg) (fun h => w_respond w h arg).

Definition resolveChannelName (channelId : jsstr) : M (option ChannelInfo) :=
  perform (EvResolveChannelName channelId) (fun h => w_resolveChannelName w h channelId).

Definition resolveUserName (userId : jsstr) : M (option UserInfo) :=
  perform (EvResolveUserName userId) (fun h => w_resolveUserName w h userId).

Definition readChannelAllowFromStore (channel : jsstr) : M (list jsstr) :=
  perform (EvReadChannelAllowFromStore channel)
          (fun h => w_readChannelAllowFromStore w h channel).

Definition upsertChannelPairingRequest (req : PairingRequest) : M PairingResult :=
  perform (EvUpsertChannelPairingRequest req)
          (fun h => w_upsertChannelPairingRequest w h req).

Definition deliverSlackSlashReplies (args : DeliverArguments) : M unit :=
  perform (EvDeliver args) (fun h => w_deliverSlackSlashReplies w h args).

(** [runtime.error?.(msg)]: nothing happens when the member is absent. *)
Definition runtimeError (msg : jsstr) : M unit :=
  match w_runtime_error w with
  | Some f => perform (EvRuntimeError msg) (fun h => f h msg)
  | None => ret tt
  end.

(** [Date.now()]. *)
Definition dateNow : M Z := fun h => ([], Normal (w_now w h)).

(** Lines 244-251, the [deliver] callback. *)
Definition deliverCallback (payload : ReplyPayload) : M unit :=
  deliverSlackSlashReplies
    {| replies := [payload];
       dl_ephemeral := sc_ephemeral slashCommand;
       dl_textLimit := textLimit ctx |}.

(** Lines 252-254, the [onError] callback. *)
Definition onErrorCallback (err : exn) (info_kind : jsstr) : M unit :=
  runtimeError
    (danger lib (lit "slack slash " ++ info_kind ++ lit " reply failed: " ++ rendered err)).

(** The dispatcher at work: it drives the two callbacks and settles. *)
Fixpoint runDispatcher (r : DispatchRun) : M Counts :=
  match r with
  | DispatchDeliver payload k =>
      o <- settle (deliverCallback payload) ;; runDispatcher (k o)
  | DispatchOnError err info_kind k =>
      o <- settle (onErrorCallback err info_kind) ;; runDispatcher (k o)
  | DispatchSettle o => perform EvDispatchSettled (fun _ => o)
  end.

Definition dispatchReplyWithDispatcher (args : DispatchArguments) : M Counts :=
  fun h =>
    let '(evs, c) :=
      runDispatcher (w_dispatchReplyWithDispatcher w h args) (h ++ [EvDispatchCall args]) in
    (EvDispatchCall args :: evs, c).

(** Line 83: [await readChannelAllowFromStore("slack").catch(() => [])]. *)
Definition readStoreAllowFrom : M (list jsstr) :=
  catchPromise (readChannelAllowFromStore (lit "slack")) [].

(** Lines 84-85. *)
Definition effectiveAllowFromOf (storeAllowFrom : list jsstr) : list jsstr :=
  normalizeAllowList lib (allowFrom ctx ++ storeAllowFrom).

Definition effectiveAllowFromLowerOf (storeAllowFrom : list jsstr) : list jsstr :=
  normalizeAllowListLower lib (effectiveAllowFromOf storeAllowFrom).

(** Lines 90-131, the body of [if (isDirectMessage)].  It yields the value
    of [commandAuthorized] on leaving the block. *)
Definition directMessageBlock (cmd : SlashCommand)
    (effectiveAllowFromLower : list jsstr) (commandAuthorized : bool) : M bool :=
  when (negb (dmEnabled ctx) || strEq (dmPolicy ctx) (lit "disabled"))
    (respond (ephemeralText "Slack DMs are disabled.") ;; return_) ;;
  if negb (strEq (dmPolicy ctx) (lit "open")) then
    sender <- resolveUserName (user_id cmd) ;;
    let senderName := sender ≫= ui_name in
    let permitted :=
      allowListMatches lib effectiveAllowFromLower (user_id cmd) senderName in
    when (negb permitted)
      ((if strEq (dmPolicy ctx) (lit "pairing") then
          r <- upsertChannelPairingRequest
                 {| pr_channel := lit "slack";
                    pr_id := user_id cmd;
                    pr_meta_name := senderName |} ;;
          when (created r)
            (respond
               {| text := buildPairingReply lib (lit "slack")
                            (lit "Your Slack user id: " ++ user_id cmd) (code r);
                  response_type := lit "ephemeral" |})
        else
          respond (ephemeralText "You are not authorized to use this command.")) ;;
       return_) ;;
    ret true
  else ret commandAuthorized.

(** Lines 135-166, the body of [if (isRoom)].  It yields the value of
    [channelConfig] on leaving the block. *)
Definition roomBlock (cmd : SlashCommand) (channelInfo : option ChannelInfo)
  : M (option SlackChannelConfigResolved) :=
  let channelConfig :=
    resolveSlackChannelConfig lib (channel_id cmd) (channelInfo ≫= ci_name)
      (channelsConfig ctx) (defaultRequireMention ctx) in
  when (useAccessGroups ctx)
    (let channelAllowlistConfigured := channelAllowlistConfiguredOf ctx in
     let channelAllowed := negb (allowedIsFalse channelConfig) in
     when (negb (isSlackRoomAllowedByPolicy lib (groupPolicy ctx)
                   channelAllowlistConfigured channelAllowed)
           || negb channelAllowed)
       (respond (ephemeralText "This channel is not allowed.") ;; return_)) ;;
  when (useAccessGroups ctx && allowedIsFalse channelConfig)
    (respond (ephemeralText "This channel is not allowed.") ;; return_) ;;
  ret channelConfig.

(** Lines 186-237: the route and the context payload. *)
Definition routeOf (cmd : SlashCommand) (isDirectMessage isRoom : bool) : AgentRoute :=
  resolveAgentRoute lib
    {| rq_channel := lit "slack";
       rq_accountId := acc_accountId account;
       rq_teamId := if truthyOpt (teamId ctx) then teamId ctx else None;
       rq_peer :=
         {| kind := if isDirectMessage then lit "dm"
                    else if isRoom then lit "channel" else lit "group";
            peer_id := if isDirectMessage then user_id cmd else channel_id cmd |} |}.

Definition ctxPayloadOf (p : HandlerArguments) (channelInfo : option ChannelInfo)
    (channelConfig : option SlackChannelConfigResolved) (senderName : jsstr)
    (commandAuthorized : bool) (timestamp : Z) : ContextPayload :=
  let cmd := command p in
  let channelType := channelTypeOf channelInfo cmd in
  let isDirectMessage := isDirectMessageType channelType in
  let isGroupDm := isGroupDmType channelType in
  let isRoom := isRoomType channelType in
  let channelName := channelInfo ≫= ci_name in
  let roomLabel :=
    match channelName with
    | Some n => if truthy n then lit "#" ++ n else lit "#" ++ channel_id cmd
    | None => lit "#" ++ channel_id cmd
    end in
  let isRoomish := isRoom || isGroupDm in
  let route := routeOf cmd isDirectMessage isRoom in
  let groupSystemPrompt :=
    groupSystemPromptOf (channelDescriptionOf channelInfo) channelConfig in
  {| Body := prompt p;
     From_ := if isDirectMessage then lit "slack:" ++ user_id cmd
              else if isRoom then lit "slack:channel:" ++ channel_id cmd
              else lit "slack:group:" ++ channel_id cmd;
     To := lit "slash:" ++ user_id cmd;
     ChatType := if isDirectMessage then lit "direct"
                 else if isRoom then lit "room" else lit "group";
     GroupSubject := if isRoomish then Some roomLabel else None;
     GroupSystemPrompt := if isRoomish then groupSystemPrompt else None;
     SenderName := senderName;
     SenderId := user_id cmd;
     Provider := lit "slack";
     Surface := lit "slack";
     WasMentioned := true;
     MessageSid := trigger_id cmd;
     Timestamp := timestamp;
     SessionKey := lit "agent:" ++ agentId route ++ lit ":"
                   ++ sc_sessionPrefix slashCommand ++ lit ":" ++ user_id cmd;
     CommandTargetSessionKey := sessionKey route;
     AccountId := accountId route;
     CommandSource := lit "native";
     CommandAuthorized := commandAuthorized;
     OriginatingChannel := lit "slack";
     OriginatingTo := lit "user:" ++ user_id cmd |}.

Definition dispatchArgumentsOf (p : HandlerArguments) (channelInfo : option ChannelInfo)
    (channelConfig : option SlackChannelConfigResolved) (senderName : jsstr)
    (commandAuthorized : bool) (timestamp : Z) : DispatchArguments :=
  let ctxPayload :=
    ctxPayloadOf p channelInfo channelConfig senderName commandAuthorized timestamp in
  let channelType := channelTypeOf channelInfo (command p) in
  let route :=
    routeOf (command p) (isDirectMessageType channelType) (isRoomType channelType) in
  {| da_ctx := ctxPayload;
     da_responsePrefix := responsePrefixFor lib (agentId route);
     da_skillFilter := channelConfig ≫= skills |}.

(** Lines 84-265: everything from the effective allow-list to the last
    delivery, given [channelInfo] and what the store read produced. *)
Definition authorizeAndDispatch (p : HandlerArguments)
    (channelInfo : option ChannelInfo) (storeAllowFrom : list jsstr) : M unit :=
  let cmd := command p in
  let channelType := channelTypeOf channelInfo cmd in
  let isDirectMessage := isDirectMessageType channelType in
  let isRoom := isRoomType channelType in
  let effectiveAllowFromLower := effectiveAllowFromLowerOf storeAllowFrom in
  commandAuthorized <-
    (if isDirectMessage then directMessageBlock cmd effectiveAllowFromLower true
     else ret true) ;;
  channelConfig <- (if isRoom then roomBlock cmd channelInfo else ret None) ;;
  sender <- resolveUserName (user_id cmd) ;;
  let senderName := senderNameOf sender cmd in
  let channelUserAllowed :=
    if isRoom
    then resolveSlackUserAllowed lib (channelConfig ≫= users) (user_id cmd) senderName
    else true in
  when (isRoom && negb channelUserAllowed)
    (respond (ephemeralText "You are not authorized to use this command here.") ;;
     return_) ;;
  timestamp <- dateNow ;;
  counts <- dispatchReplyWithDispatcher
              (dispatchArgumentsOf p channelInfo channelConfig senderName
                 commandAuthorized timestamp) ;;
  when (final counts + tool counts + block counts =? 0)%float
    (deliverSlackSlashReplies
       {| replies := [];
          dl_ephemeral := sc_ephemeral slashCommand;
          dl_textLimit := textLimit ctx |}).

(** Lines 63-265, given [channelInfo]. *)
Definition afterChannelInfo (p : HandlerArguments) (channelInfo : option ChannelInfo)
  : M unit :=
  let cmd := command p in
  when (negb (isChannelAllowed ctx
                {| ica_channelId := channel_id cmd;
                   ica_channelName := channelInfo ≫= ci_name;
                   ica_channelType := channelTypeOf channelInfo cmd |}))
    (respond (ephemeralText "This channel is not allowed.") ;; return_) ;;
  storeAllowFrom <- readStoreAllowFrom ;;
  authorizeAndDispatch p channelInfo storeAllowFrom.

(** Lines 51-265, the [try] block. *)
Definition tryBlock (p : HandlerArguments) : M unit :=
  when (negb (truthy (trim (prompt p))))
    (ack (Some (ephemeralText "Message required.")) ;; return_) ;;
  ack None ;;
  when (isSelfMessage ctx (command p)) return_ ;;
  channelInfo <- resolveChannelName (channel_id (command p)) ;;
  afterChannelInfo p channelInfo.

(** Lines 266-272, the [catch] block. *)
Definition catchBlock (err : exn) : M unit :=
  runtimeError (danger lib (lit "slack slash handler failed: " ++ rendered err)) ;;
  respond (ephemeralText "Sorry, something went wrong handling that command.").

(** Lines 43-273. *)
Definition handleSlashCommandBody (p : HandlerArguments) : M unit :=
  tryCatch (tryBlock p) catchBlock.

Definition handleSlashCommand (p : HandlerArguments) : trace * outcome unit :=
  asyncCall (handleSlashCommandBody p).

End registerSlackMonitorSlashCommands.

(** ** Registration (lines 275-305) *)

(** A command event as Bolt hands it to a registered listener: the fields
    the handler reads, and [text], which only the registration code reads
    (through [?.], so it may be absent). *)
Record CommandEvent := {
  ce_command : SlashCommand;
  ce_text : option jsstr
}.

(** First argument of [ctx.app.command]: a literal command name, or the
    value of [buildSlackSlashCommandMatcher(name)]. *)
Inductive CommandMatcher : Type :=
| ExactCommand (name : jsstr)
| SlashCommandMatcher (name : jsstr).

(** One call of [ctx.app.command]: the matcher, and how the listener derives
    [prompt] before it calls [handleSlashCommand]. *)
Record Registration := {
  reg_matcher : CommandMatcher;
  reg_prompt : CommandEvent -> jsstr
}.

(** An entry of [listNativeCommandSpecsForConfig(cfg)]; only [name] is
    read. *)
Record NativeCommandSpec := { nc_name : jsstr }.

(** What the registration code obtains from modules that are not among the
    sources: the value of [resolveNativeCommandsEnabled(...)], the list
    [listNativeCommandSpecsForConfig(cfg)], and [buildCommandText]. *)
Record RegistrationInputs := {
  nativeEnabled : bool;
  nativeSpecs : list NativeCommandSpec;
  buildCommandText : jsstr -> option jsstr -> jsstr
}.

(** Lines 280-305: the calls of [ctx.app.command], in order, and the lines
    passed to [logVerbose]. *)
Definition registerCommands (inputs : RegistrationInputs)
    (slashCommand : SlashCommandConfig) : list Registration * list jsstr :=
  let nativeCommands := if nativeEnabled inputs then nativeSpecs inputs else [] in
  if bool_decide (0 < length nativeCommands) then
    (List.map
       (fun command =>
          {| reg_matcher := ExactCommand (lit "/" ++ nc_name command);
             reg_prompt := fun cmd => buildCommandText inputs (nc_name command) (ce_text cmd) |})
       nativeCommands,
     [])
  else if sc_enabled slashCommand then
    ([ {| reg_matcher := SlashCommandMatcher (sc_name slashCommand);
          reg_prompt := fun cmd =>
            match ce_text cmd with Some t => trim t | None => lit "" end |} ],
     [])
  else ([], [lit "slack: slash commands disabled"]).

(** A registered listener at work (lines 285-288 and 294-301). *)
Definition listen (w : World) (lib : Imports) (ctx : SlackMonitorContext)
    (account : ResolvedSlackAccount) (slashCommand : SlashCommandConfig)
    (r : Registration) (cmd : CommandEvent) : trace * outcome unit :=
  handleSlashCommand w lib ctx account slashCommand
    {| command := ce_command cmd; prompt := reg_prompt r cmd |}.

(** ** The channel-config resolver *)

Module channel_config.

(** Modelled from the spec: the lookup order of [resolveSlackChannelConfig]
    ([channel-config.ts] is not among the sources, only its test is): the
    exact [channelId] key, then the exact [channelName] key, then the
    wildcard key, then none. *)
Definition lookupEntry (channelId : jsstr) (channelName : option jsstr)
    (channels : gmap jsstr ChannelConfig) : option ChannelConfig :=
  match channels !! channelId with
  | Some entry => Some entry
  | None =>
      match channelName ≫= (fun n => channels !! n) with
      | Some entry => Some entry
      | None => channels !! lit "*"
      end
  end.

(** Modelled from the spec: [resolveSlackChannelConfig] of
    [channel-config.ts], which is not among the sources.  [requireMention]
    is the matched entry's explicit value, else [defaultRequireMention],
    else [true]; [allowed] is [true] unless the matched entry says
    otherwise; the remaining fields are the matched entry's. *)
Definition resolveSlackChannelConfig (channelId : jsstr) (channelName : option jsstr)
    (channels : option (gmap jsstr ChannelConfig)) (defaultRequireMention : option bool)
  : SlackChannelConfigResolved :=
  let entry := lookupEntry channelId channelName (default ∅ channels) in
  {| allowed := default true (entry ≫= cfg_allowed);
     requireMention :=
       match entry ≫= cfg_requireMention with
       | Some b => b
       | None => default true defaultRequireMention
       end;
     users := entry ≫= cfg_users;
     systemPrompt := entry ≫= cfg_systemPrompt;
     skills := entry ≫= cfg_skills |}.

End channel_config.

(** ** Concrete collaborators, to run the handler on examples *)

Module Sample.

(** Every collaborator succeeds; the store holds [stored]; the pairing
    store answers [pairing]; the dispatcher does what [run] says. *)
Definition world (stored : list jsstr) (info : option ChannelInfo)
    (pairing : PairingResult) (run : DispatchRun) : World :=
  {| w_ack := fun _ _ => Fulfilled tt;
     w_respond := fun _ _ => Fulfilled tt;
     w_resolveChannelName := fun _ _ => Fulfilled info;
     w_resolveUserName := fun _ _ => Fulfilled None;
     w_readChannelAllowFromStore := fun _ _ => Fulfilled stored;
     w_upsertChannelPairingRequest := fun _ _ => Fulfilled pairing;
     w_dispatchReplyWithDispatcher := fun _ _ => run;
     w_deliverSlackSlashReplies := fun _ _ => Fulfilled tt;
     w_runtime_error := Some (fun _ _ => Fulfilled tt);
     w_now := fun _ => 0%Z |}.

(** The resolver is the one modelled from the spec; the other helpers are
    simple stand-ins: the room policy is permissive, an allow-list matches
    an id it contains, a room without a [users] list admits everybody. *)
Definition imports : Imports :=
  {| resolveSlackChannelConfig := fun channelId channelName channels dflt =>
       Some (channel_config.resolveSlackChannelConfig channelId channelName channels dflt);
     isSlackRoomAllowedByPolicy := fun _ _ _ => true;
     allowListMatches := fun l id _ => bool_decide (id ∈ l);
     normalizeAllowList := fun l => l;
     normalizeAllowListLower := fun l => l;
     resolveSlackUserAllowed := fun l id _ =>
       match l with Some l => bool_decide (id ∈ l) | None => true end;
     buildPairingReply := fun _ idLine code => idLine ++ lit " " ++ code;
     resolveAgentRoute := fun q =>
       {| agentId := lit "main"; sessionKey := lit "session";
          accountId := rq_accountId q |};
     responsePrefixFor := fun _ => None;
     danger := fun s => s |}.

Definition context (channels : option (gmap jsstr ChannelConfig))
    (accessGroups : bool) (policy : jsstr) : SlackMonitorContext :=
  {| botUserId := Some (lit "UBOT");
     teamId := Some (lit "T1");
     allowFrom := [];
     dmEnabled := true;
     dmPolicy := policy;
     channelsConfig := channels;
     defaultRequireMention := None;
     useAccessGroups := accessGroups;
     groupPolicy := lit "open";
     textLimit := 4000;
     isChannelAllowed := fun _ => true |}.

Definition account : ResolvedSlackAccount := {| acc_accountId := lit "default" |}.

Definition slashCommand : SlashCommandConfig :=
  {| sc_enabled := true; sc_name := lit "clawd";
     sc_sessionPrefix := lit "slack:slash"; sc_ephemeral := true |}.

Definition slash (channel : string) (body : string) : HandlerArguments :=
  {| command :=
       {| user_id := lit "U1"; user_name := Some (lit "ann");
          channel_id := lit channel; channel_name := lit "general";
          trigger_id := lit "trig" |};
     prompt := lit body |}.

Definition infoOfType (type : string) : option ChannelInfo :=
  Some {| ci_name := Some (lit "general"); ci_type := Some (lit type);
          ci_topic := None; ci_purpose := None |}.

Definition noReplies : DispatchRun :=
  DispatchSettle (Fulfilled {| final := 0; tool := 0; block := 0 |}).

Definition oneReply : DispatchRun :=
  DispatchDeliver {| reply_text := Some (lit "hello") |}
    (fun _ => DispatchSettle (Fulfilled {| final := 1; tool := 0; block := 0 |})).

End Sample.

(** ** Worlds and configurations used as examples *)

Module C1Example.

Definition closed : ChannelConfig :=
  {| cfg_requireMention := None; cfg_allowed := Some false; cfg_users := None;
     cfg_systemPrompt := None; cfg_skills := None |}.

Definition world : World :=
  Sample.world [] (Sample.infoOfType "channel")
    {| code := lit "K"; created := true |} Sample.noReplies.

(** The room [C1] is configured [allowed: false]. *)
Definition context (accessGroups : bool) : SlackMonitorContext :=
  Sample.context (Some {[ lit "C1" := closed ]}) accessGroups (lit "open").

Definition resolved : SlackChannelConfigResolved :=
  {| allowed := false; requireMention := true; users := None;
     systemPrompt := None; skills := None |}.

End C1Example.

Module C6Example.

Definition unreadable : exn := Exn (lit "EACCES").

(** The allow-list store cannot be read; everything else succeeds. *)
Definition world : World :=
  {| w_ack := fun _ _ => Fulfilled tt;
     w_respond := fun _ _ => Fulfilled tt;
     w_resolveChannelName := fun _ _ => Fulfilled (Sample.infoOfType "im");
     w_resolveUserName := fun _ _ => Fulfilled None;
     w_readChannelAllowFromStore := fun _ _ => Rejected unreadable;
     w_upsertChannelPairingRequest :=
       fun _ _ => Fulfilled {| code := lit "K"; created := true |};
     w_dispatchReplyWithDispatcher := fun _ _ => Sample.oneReply;
     w_deliverSlackSlashReplies := fun _ _ => Fulfilled tt;
     w_runtime_error := Some (fun _ _ => Fulfilled tt);
     w_now := fun _ => 0%Z |}.

(** Direct messages are restricted to the static allow-list, which names
    the sender of the sample commands. *)
Definition context : SlackMonitorContext :=
  {| botUserId := Some (lit "UBOT");
     teamId := Some (lit "T1");
     allowFrom := [lit "U1"];
     dmEnabled := true;
     dmPolicy := lit "allowlist";
     channelsConfig := None;
     defaultRequireMention := None;
     useAccessGroups := false;
     groupPolicy := lit "open";
     textLimit := 4000;
     isChannelAllowed := fun _ => true |}.

End C6Example.

Module C8Example.

Definition expired : exn := Exn (lit "expired_url").

(** A transport whose [respond] always rejects, as it does once Slack's
    response URL has expired; everything else succeeds. *)
Definition world : World :=
  {| w_ack := fun _ _ => Fulfilled tt;
     w_respond := fun _ _ => Rejected expired;
     w_resolveChannelName := fun _ _ => Fulfilled (Sample.infoOfType "im");
     w_resolveUserName := fun _ _ => Fulfilled None;
     w_readChannelAllowFromStore := fun _ _ => Fulfilled [];
     w_upsertChannelPairingRequest :=
       fun _ _ => Fulfilled {| code := lit "K"; created := true |};
     w_dispatchReplyWithDispatcher := fun _ _ => Sample.noReplies;
     w_deliverSlackSlashReplies := fun _ _ => Fulfilled tt;
     w_runtime_error := Some (fun _ _ => Fulfilled tt);
     w_now := fun _ => 0%Z |}.

(** Direct messages are switched off, so the handler wants to say so. *)
Definition context : SlackMonitorContext :=
  Sample.context None false (lit "disabled").

End C8Example.

Module C10Example.

Definition world : World :=
  Sample.world [] (Sample.infoOfType "mpim")
    {| code := lit "K"; created := true |} Sample.oneReply.

(** Everything that could refuse a DM or a room is set to refuse. *)
Definition context : SlackMonitorContext :=
  {| botUserId := Some (lit "UBOT");
     teamId := Some (lit "T1");
     allowFrom := [];
     dmEnabled := false;
     dmPolicy := lit "disabled";
     channelsConfig := Some {[ lit "G1" := C1Example.closed ]};
     defaultRequireMention := None;
     useAccessGroups := true;
     groupPolicy := lit "disabled";
     textLimit := 4000;
     isChannelAllowed := fun _ => true |}.

End C10Example.

Module FailingDispatch.

Definition crashed : exn := Exn (lit "agent crashed").

(** The dispatcher rejects; everything else succeeds. *)
Definition world : World :=
  Sample.world [] (Sample.infoOfType "im")
    {| code := lit "K"; created := true |} (DispatchSettle (Rejected crashed)).

End FailingDispatch.

Module RoomExample.

Definition listed : ChannelConfig :=
  {| cfg_requireMention := None; cfg_allowed := Some true;
     cfg_users := Some [lit "U1"]; cfg_systemPrompt := Some (lit " Be brief. ");
     cfg_skills := Some [lit "search"] |}.

Definition context : SlackMonitorContext :=
  Sample.context (Some {[ lit "C1" := listed ]}) true (lit "open").

Definition world : World :=
  Sample.world []
    (Some {| ci_name := Some (lit "general"); ci_type := Some (lit "channel");
             ci_topic := Some (lit " Team chat "); ci_purpose := Some (lit "Team chat") |})
    {| code := lit "K"; created := true |} Sample.oneReply.

Definition info : option ChannelInfo := 
  Some {| ci_name := Some (lit "general"); ci_type := Some (lit "channel");
          ci_topic := Some (lit " Team chat "); ci_purpose := Some (lit "Team chat") |}.

End RoomExample.

(** * Properties *)

(** ** Vocabulary of the statements *)

Definition blank (s : jsstr) : Prop := Forall (fun c => isWhiteSpace c = true) s.

Definition emits {A} (P : event -> Prop) (m : M A) : Prop :=
  forall h, Forall P (m h).1.

(** What a piece of code yields when it completes normally. *)
Definition yields {A} (Q : A -> Prop) (m : M A) : Prop :=
  forall h a, (m h).2 = Normal a -> Q a.

(** Event classes. *)
Definition fromCatch (ev : event) : Prop :=
  match ev with EvRuntimeError _ _ | EvRespond _ _ => True | _ => False end.

Definition fromDispatcher (ev : event) : Prop :=
  match ev with
  | EvDeliver _ _ | EvRuntimeError _ _ | EvDispatchSettled _ => True
  | _ => False
  end.

Definition fromCallbacks (ev : event) : Prop :=
  match ev with EvDeliver _ _ | EvRuntimeError _ _ => True | _ => False end.

Definition afterResolution (ev : event) : Prop :=
  match ev with EvAck _ _ | EvResolveChannelName _ _ => False | _ => True end.

Definition afterStoreRead (ev : event) : Prop :=
  match ev with
  | EvAck _ _ | EvResolveChannelName _ _ | EvReadChannelAllowFromStore _ _ => False
  | _ => True
  end.

Definition dispatched (t : trace) : Prop := exists args, In (EvDispatchCall args) t.

Definition acknowledgedPlainly (t : trace) : Prop := exists o, In (EvAck None o) t.

Definition responded (t : trace) : Prop := exists arg o, In (EvRespond arg o) t.

Definition slowWork (ev : event) : Prop :=
  match ev with
  | EvResolveChannelName _ _ | EvReadChannelAllowFromStore _ _ | EvDispatchCall _ => True
  | _ => False
  end.

(** What remains of the handler's run once the events [h] have happened and
    [m] is what is left of the [try] block. *)
Definition resume (w : World) (lib : Imports) (h : trace) (m : M unit)
  : trace * outcome unit :=
  let '(evs, c) := tryCatch m (catchBlock w lib) h in
  (h ++ evs, match c with Throw e => Rejected e | _ => Fulfilled tt end).

(** The command got as far as a resolved [channelInfo]. *)
Definition reachesResolution (w : World) (ctx : SlackMonitorContext)
    (p : HandlerArguments) (info : option ChannelInfo) : Prop :=
  truthy (trim (prompt p)) = true
  /\ w_ack w [] None = Fulfilled tt
  /\ isSelfMessage ctx (command p) = false
  /\ w_resolveChannelName w [EvAck None (Fulfilled tt)] (channel_id (command p))
     = Fulfilled info.

Definition resolutionHistory (p : HandlerArguments) (info : option ChannelInfo) : trace :=
  [EvAck None (Fulfilled tt);
   EvResolveChannelName (channel_id (command p)) (Fulfilled info)].

(** Two configurations that differ at most in what authorizes direct
    messages and rooms: the DM switch and policy, the static allow-list, the
    channels mapping and its default, the access-group switch and policy, and
    the helpers that consult them.  What is left must agree. *)
Definition sameBeyondPolicy (lib lib' : Imports) (ctx ctx' : SlackMonitorContext) : Prop :=
  botUserId ctx' = botUserId ctx
  /\ teamId ctx' = teamId ctx
  /\ textLimit ctx' = textLimit ctx
  /\ (forall a, isChannelAllowed ctx' a = isChannelAllowed ctx a)
  /\ (forall q, resolveAgentRoute lib' q = resolveAgentRoute lib q)
  /\ (forall a, responsePrefixFor lib' a = responsePrefixFor lib a)
  /\ (forall s, danger lib' s = danger lib s).

Definition channelAllowedArguments (p : HandlerArguments) (info : option ChannelInfo)
  : IsChannelAllowedArguments :=
  {| ica_channelId := channel_id (command p);
     ica_channelName := info ≫= ci_name;
     ica_channelType := channelTypeOf info (command p) |}.

(** The delivery of line 259: no replies. *)
Definition emptyDelivery (ctx : SlackMonitorContext) (sc : SlashCommandConfig)
  : DeliverArguments :=
  {| replies := []; dl_ephemeral := sc_ephemeral sc; dl_textLimit := textLimit ctx |}.

(** Every fulfilled settlement whose counts pass the test of line 258
    ([counts.final + counts.tool + counts.block === 0], on doubles) is
    directly followed by the delivery [d]. *)
Fixpoint answersEmptyDispatch (d : DeliverArguments) (t : trace) : Prop :=
  match t with
  | [] => True
  | EvDispatchSettled (Fulfilled counts) :: rest =>
      ((final counts + tool counts + block counts =? 0)%float = true ->
       exists o rest', rest = EvDeliver d o :: rest')
      /\ answersEmptyDispatch d rest
  | _ :: rest => answersEmptyDispatch d rest
  end.

Definition unsettled (ev : event) : Prop :=
  match ev with EvDispatchSettled _ => False | _ => True end.

(** The answer of line 268-271 and the log line of line 267. *)
Definition genericFailure : RespondArguments :=
  ephemeralText "Sorry, something went wrong handling that command.".

Definition handlerFailedMessage (lib : Imports) (e : exn) : jsstr :=
  danger lib (lit "slack slash handler failed: " ++ rendered e).

(** A dispatch, if this event is one, carries [CommandAuthorized: true]. *)
Definition dispatchesAuthorized (ev : event) : Prop :=
  match ev with
  | EvDispatchCall args => CommandAuthorized (da_ctx args) = true
  | _ => True
  end.

(** The claim C1 as the spec words it: whenever the command is in a room and
    the resolved channel config says [allowed: false], the command is
    answered "This channel is not allowed." and is not dispatched. *)
Definition rejectsDisallowedRoom (w : World) (lib : Imports) (ctx : SlackMonitorContext)
    (account : ResolvedSlackAccount) (sc : SlashCommandConfig) (p : HandlerArguments)
  : Prop :=
  let run := handleSlashCommand w lib ctx account sc p in
  forall info channelConfig,
    In (EvResolveChannelName (channel_id (command p)) (Fulfilled info)) run.1 ->
    isRoomType (channelTypeOf info (command p)) = true ->
    resolveSlackChannelConfig lib (channel_id (command p)) (info ≫= ci_name)
      (channelsConfig ctx) (defaultRequireMention ctx) = Some channelConfig ->
    allowed channelConfig = false ->
    (exists o, In (EvRespond (ephemeralText "This channel is not allowed.") o) run.1)
    /\ ~ dispatched run.1.

(** The same helpers, with the [allowed] flag of every resolved channel
    config replaced by what [flag] says. *)
Definition withAllowed (b : bool) (c : SlackChannelConfigResolved)
  : SlackChannelConfigResolved :=
  {| allowed := b;
     requireMention := requireMention c;
     users := users c;
     systemPrompt := systemPrompt c;
     skills := skills c |}.

Definition overridingAllowed (flag : SlackChannelConfigResolved -> bool) (lib : Imports)
  : Imports :=
  {| resolveSlackChannelConfig := fun channelId channelName channels defaultMention =>
       (fun c => withAllowed (flag c) c)
         <$> resolveSlackChannelConfig lib channelId channelName channels defaultMention;
     isSlackRoomAllowedByPolicy := isSlackRoomAllowedByPolicy lib;
     allowListMatches := allowListMatches lib;
     normalizeAllowList := normalizeAllowList lib;
     normalizeAllowListLower := normalizeAllowListLower lib;
     resolveSlackUserAllowed := resolveSlackUserAllowed lib;
     buildPairingReply := buildPairingReply lib;
     resolveAgentRoute := resolveAgentRoute lib;
     responsePrefixFor := responsePrefixFor lib;
     danger := danger lib |}.

(** The two kinds of events of the [catch] block, with the one message it
    ever sends. *)
Definition fromFallback (ev : event) : Prop :=
  match ev with
  | EvRuntimeError _ _ => True
  | EvRespond arg _ => arg = genericFailure
  | _ => False
  end.

(** How many times the dispatcher is called in a trace. *)
Fixpoint dispatchCount (t : trace) : nat :=
  match t with
  | [] => 0
  | EvDispatchCall _ :: rest => S (dispatchCount rest)
  | _ :: rest => dispatchCount rest
  end.

(** [Q counts rest] holds at every fulfilled settlement of the dispatcher,
    [rest] being what follows it in the trace. *)
Fixpoint atSettlement (Q : Counts -> trace -> Prop) (t : trace) : Prop :=
  match t with
  | [] => True
  | EvDispatchSettled (Fulfilled counts) :: rest => Q counts rest /\ atSettlement Q rest
  | _ :: rest => atSettlement Q rest
  end.

(** What the store read contributes to the allow-list. *)
Definition storedEntries (o : outcome (list jsstr)) : list jsstr :=
  match o with Fulfilled l => l | Rejected _ => [] end.

Definition upserted (t : trace) : Prop :=
  exists req o, In (EvUpsertChannelPairingRequest req o) t.

(** A delivery as the handler makes them: at most one reply, with the
    configured visibility and text limit. *)
Definition deliversAsConfigured (ctx : SlackMonitorContext) (sc : SlashCommandConfig)
    (ev : event) : Prop :=
  match ev with
  | EvDeliver args _ =>
      length (replies args) <= 1
      /\ dl_ephemeral args = sc_ephemeral sc
      /\ dl_textLimit args = textLimit ctx
  | _ => True
  end.

(** What lines 89-169 do first: a refusal of the direct message or of the
    room, or the lookup of the sender. *)
Definition proceedsAfterStoreRead (cmd : SlashCommand) (ev : event) : Prop :=
  match ev with
  | EvResolveUserName userId _ => userId = user_id cmd
  | EvRespond arg _ =>
      arg = ephemeralText "Slack DMs are disabled."
      \/ arg = ephemeralText "This channel is not allowed."
  | _ => False
  end.

(** ** Blank strings *)

Lemma trimStart_nil_iff (s : jsstr) : trimStart s = [] <-> blank s.
Proof.
  unfold blank. induction s as [|c s IH]; simpl.
  - split; [constructor | reflexivity].
  - destruct (isWhiteSpace c) eqn:Hc.
    + rewrite IH. split; [intros Hs; constructor; assumption | intros Hs].
      inversion Hs; assumption.
    + split; [discriminate | intros Hs].
      inversion Hs; congruence.
Qed.

Lemma trimStart_idempotent (s : jsstr) : trimStart (trimStart s) = trimStart s.
Proof.
  induction s as [|c s IH]; simpl; [reflexivity |].
  destruct (isWhiteSpace c) eqn:Hc; [exact IH | simpl; rewrite Hc; reflexivity].
Qed.

(** [!prompt.trim()] holds exactly for the blank prompts. *)
Lemma trim_falsy_iff (s : jsstr) : truthy (trim s) = false <-> blank s.
Proof.
  assert (Hnil : forall l : jsstr, truthy l = false <-> l = [])
    by (intros [|? ?]; simpl; split; congruence).
  rewrite Hnil. unfold trim, trimEnd.
  split.
  - intros H. apply (f_equal (@rev N)) in H. rewrite rev_involutive in H. simpl in H.
    apply trimStart_nil_iff in H. unfold blank in H.
    apply Forall_rev in H. rewrite rev_involutive in H.
    apply trimStart_nil_iff in H. rewrite trimStart_idempotent in H.
    apply trimStart_nil_iff. exact H.
  - intros H. apply trimStart_nil_iff in H. rewrite H. reflexivity.
Qed.

(** ** Which events a piece of handler code can add *)

Lemma emits_ret {A} (P : event -> Prop) (a : A) : emits P (ret a).
Proof. intros h. constructor. Qed.

Lemma emits_return {A} (P : event -> Prop) : emits P (@return_ A).
Proof. intros h. constructor. Qed.

Lemma emits_perform {A} (P : event -> Prop) (ev : outcome A -> event) oracle :
  (forall o, P (ev o)) -> emits P (perform ev oracle).
Proof. intros H h. simpl. repeat constructor. apply H. Qed.

Lemma emits_bind {A B} (P : event -> Prop) (m : M A) (f : A -> M B) :
  emits P m -> (forall a, emits P (f a)) -> emits P (bind m f).
Proof.
  intros Hm Hf h. unfold bind. specialize (Hm h).
  destruct (m h) as [evs [a| |e]]; simpl in *; try assumption.
  specialize (Hf a (h ++ evs)). destruct (f a (h ++ evs)) as [evs' c]; simpl in *.
  apply Forall_app; split; assumption.
Qed.

Lemma emits_when (P : event -> Prop) (c : bool) (m : M unit) :
  emits P m -> emits P (when c m).
Proof. intros H. destruct c; simpl; [exact H | apply emits_ret]. Qed.

Lemma emits_tryCatch (P : event -> Prop) (body : M unit) (handler : exn -> M unit) :
  emits P body -> (forall e, emits P (handler e)) -> emits P (tryCatch body handler).
Proof.
  intros Hb Hh h. unfold tryCatch. specialize (Hb h).
  destruct (body h) as [evs [a| |e]]; simpl in *; try assumption.
  specialize (Hh e (h ++ evs)). destruct (handler e (h ++ evs)) as [evs' c]; simpl in *.
  apply Forall_app; split; assumption.
Qed.

Lemma emits_catchPromise {A} (P : event -> Prop) (m : M A) (fallback : A) :
  emits P m -> emits P (catchPromise m fallback).
Proof.
  intros Hm h. unfold catchPromise. specialize (Hm h).
  destruct (m h) as [evs [a| |e]]; simpl in *; assumption.
Qed.

Lemma emits_settle (P : event -> Prop) (m : M unit) : emits P m -> emits P (settle m).
Proof.
  intros Hm h. unfold settle. specialize (Hm h).
  destruct (m h) as [evs [a| |e]]; simpl in *; assumption.
Qed.

Lemma emits_weaken {A} (P Q : event -> Prop) (m : M A) :
  (forall ev, P ev -> Q ev) -> emits P m -> emits Q m.
Proof. intros HPQ Hm h. eapply Forall_impl; [apply Hm | exact HPQ]. Qed.

Lemma yields_ret {A} (Q : A -> Prop) (a : A) : Q a -> yields Q (ret a).
Proof. intros H h a' [= <-]. exact H. Qed.

Lemma yields_bind {A B} (Q : B -> Prop) (m : M A) (f : A -> M B) :
  (forall a, yields Q (f a)) -> yields Q (bind m f).
Proof.
  intros Hf h b. unfold bind.
  destruct (m h) as [evs [a| |e]]; simpl; try discriminate.
  specialize (Hf a (h ++ evs) b). destruct (f a (h ++ evs)) as [evs' c]; simpl in *.
  exact Hf.
Qed.

Lemma emits_bind_yields {A B} (P : event -> Prop) (Q : A -> Prop) (m : M A) (f : A -> M B) :
  emits P m -> yields Q m -> (forall a, Q a -> emits P (f a)) -> emits P (bind m f).
Proof.
  intros Hm HQ Hf h. unfold bind. specialize (Hm h). specialize (HQ h).
  destruct (m h) as [evs [a| |e]]; simpl in *; try assumption.
  specialize (Hf a (HQ a eq_refl) (h ++ evs)).
  destruct (f a (h ++ evs)) as [evs' c]; simpl in *.
  apply Forall_app; split; assumption.
Qed.

Section Blocks.

Context (w : World) (lib : Imports) (ctx : SlackMonitorContext)
        (account : ResolvedSlackAccount) (slashCommand : SlashCommandConfig).

Lemma emits_runtimeError (P : event -> Prop) msg :
  (forall o, P (EvRuntimeError msg o)) -> emits P (runtimeError w msg).
Proof.
  intros H. unfold runtimeError.
  destruct (w_runtime_error w); [apply emits_perform; exact H | apply emits_ret].
Qed.

Lemma emits_catchBlock (P : event -> Prop) e :
  (forall ev, fromCatch ev -> P ev) -> emits P (catchBlock w lib e).
Proof.
  intros H. unfold catchBlock, respond.
  apply emits_bind; [apply emits_runtimeError | intros _; apply emits_perform];
    intros o; apply H; exact I.
Qed.

(** Whatever the dispatcher does, the events it causes are deliveries and
    error logs, closed by the one settling event, and the [await] sees
    that settlement. *)
Lemma runDispatcher_shape r h :
  exists cbs o,
    runDispatcher w lib ctx slashCommand r h = (cbs ++ [EvDispatchSettled o], awaited o)
    /\ Forall fromCallbacks cbs.
Proof.
  revert h. induction r as [payload k IH|err info_kind k IH|o]; intros h.
  - cbn [runDispatcher]. unfold bind, settle, deliverCallback, deliverSlackSlashReplies,
      perform. cbv zeta.
    match goal with |- context [w_deliverSlackSlashReplies w h ?a] =>
      destruct (w_deliverSlackSlashReplies w h a) as [[]|e] eqn:Hd end; cbn [awaited].
    all: match goal with |- context [runDispatcher _ _ _ _ (_ ?o) ?h'] =>
           destruct (IH o h') as (cbs & o' & -> & Hcbs) end.
    all: eexists (_ :: cbs), o'; split; [reflexivity | constructor; [exact I | exact Hcbs]].
  - cbn [runDispatcher]. unfold bind, settle, onErrorCallback, runtimeError, perform, ret.
    destruct (w_runtime_error w) as [f|]; cbv zeta.
    + match goal with |- context [f h ?m] => destruct (f h m) as [[]|e] eqn:Hd end;
        cbn [awaited].
      all: match goal with |- context [runDispatcher _ _ _ _ (_ ?o) ?h'] =>
             destruct (IH o h') as (cbs & o' & -> & Hcbs) end.
      all: eexists (_ :: cbs), o'; split; [reflexivity | constructor; [exact I | exact Hcbs]].
    + match goal with |- context [runDispatcher _ _ _ _ (_ ?o) ?h'] =>
        destruct (IH o h') as (cbs & o' & -> & Hcbs) end.
      exists cbs, o'. split; [reflexivity | exact Hcbs].
  - exists [], o. split; [reflexivity | constructor].
Qed.

Lemma emits_runDispatcher (P : event -> Prop) r :
  (forall ev, fromDispatcher ev -> P ev) ->
  emits P (runDispatcher w lib ctx slashCommand r).
Proof.
  intros H h. destruct (runDispatcher_shape r h) as (cbs & o & -> & Hcbs). simpl.
  apply Forall_app; split.
  - eapply Forall_impl; [exact Hcbs |]. intros [] Hev; try contradiction; apply H; exact I.
  - repeat constructor. apply H. exact I.
Qed.

End Blocks.

(** ** Reading a run of the handler *)

Opaque lit.
Arguments strEq : simpl never.
Arguments trim : simpl never.
Arguments ephemeralText : simpl never.
Arguments channelTypeOf : simpl never.
Arguments isRoomType : simpl never.
Arguments isDirectMessageType : simpl never.
Arguments isGroupDmType : simpl never.
Arguments isSelfMessage : simpl never.
Arguments dispatchArgumentsOf : simpl never.
Arguments allowedIsFalse : simpl never.
Arguments channelAllowlistConfiguredOf : simpl never.
Arguments senderNameOf : simpl never.
Arguments catchBlock : simpl never.
Arguments runDispatcher : simpl never.
Arguments effectiveAllowFromLowerOf : simpl never.
Arguments authorizeAndDispatch : simpl never.
Arguments afterChannelInfo : simpl never.
#[local] Arguments Z.add : simpl never.
#[local] Arguments Z.eqb : simpl never.

Lemma strEq_true (a b : jsstr) : strEq a b = true -> a = b.
Proof. unfold strEq. apply bool_decide_eq_true_1. Qed.

Lemma strEq_false (a b : jsstr) : strEq a b = false -> a <> b.
Proof. unfold strEq. apply bool_decide_eq_false_1. Qed.

Lemma in_class (P : event -> Prop) (l : trace) (ev : event) :
  Forall P l -> In ev l -> P ev.
Proof. intros Hl Hin. rewrite Forall_forall in Hl. apply Hl, list_elem_of_In, Hin. Qed.

(** One step of reading the run: expose what the next collaborator answered,
    or which way the next test went. *)
Ltac run_step :=
  match goal with
  | |- context [catchBlock ?w ?lib ?e ?h] =>
      let Hc := fresh "Hcatch" in
      let Hr := fresh "Hcaught" in
      pose proof (@emits_catchBlock w lib fromCatch e (fun _ H => H) h) as Hc;
      destruct (catchBlock w lib e h) as [? ?] eqn:Hr; simpl in Hc
  | |- context [runDispatcher ?w ?lib ?ctx ?sc ?r ?h] =>
      let cbs := fresh "cbs" in
      let o := fresh "settled" in
      let Hr := fresh "Hrun" in
      let Hc := fresh "Hcbs" in
      destruct (@runDispatcher_shape w lib ctx sc r h) as (cbs & o & Hr & Hc);
      rewrite Hr; clear Hr
  | |- context [awaited ?o] =>
      lazymatch o with
      | context [match _ with _ => _ end] => fail
      | _ => destruct o eqn:?
      end
  | |- context [match ?x with _ => _ end] =>
      lazymatch x with
      | context [match _ with _ => _ end] => fail
      | _ => destruct x eqn:?
      end
  end; simpl.

Ltac unfold_entry :=
  unfold handleSlashCommand, asyncCall, handleSlashCommandBody, tryCatch, tryBlock,
    bind, when, ack, resolveChannelName, perform, ret, return_;
  simpl.

Ltac unfold_afterChannelInfo :=
  unfold afterChannelInfo, readStoreAllowFrom, catchPromise, bind, when, respond,
    readChannelAllowFromStore, perform, ret, return_;
  simpl.

Ltac unfold_handler := unfold_entry; unfold_afterChannelInfo.

Ltac unfold_pipeline :=
  unfold authorizeAndDispatch, directMessageBlock, roomBlock,
    dispatchReplyWithDispatcher, bind, when, respond, resolveUserName,
    upsertChannelPairingRequest, deliverSlackSlashReplies, perform, ret, return_, dateNow;
  simpl.

(** Name the run, then read it path by path; every path ends with the trace
    and the outcome spelled out. *)
Ltac read_run :=
  match goal with
  | |- context [handleSlashCommand ?w ?lib ?ctx ?acc ?sc ?p] =>
      let t := fresh "t" in
      let out := fresh "out" in
      let Hrun := fresh "Hrun" in
      destruct (handleSlashCommand w lib ctx acc sc p) as [t out] eqn:Hrun;
      cbn [fst snd]; revert t out Hrun
  end;
  unfold_handler; unfold_pipeline; repeat run_step;
  intros ? ? [= <- <-].

(** Membership of an event in a trace that has been read. *)
Ltac member H :=
  repeat first
    [ contradiction
    | discriminate H
    | match type of H with
      | In ?ev ?l =>
          match goal with
          | Hc : Forall ?P l |- _ => apply (in_class Hc) in H; simpl in H
          end
      | In _ (_ ++ _) => apply in_app_or in H
      end
    | destruct H as [H|H] ].

Ltac find_member := simpl; repeat first [left; reflexivity | right].

Lemma optStrEq_true (a : option jsstr) (b : jsstr) : optStrEq a b = true -> a = Some b.
Proof. destruct a as [a|]; simpl; [intros H; f_equal; apply strEq_true, H | discriminate]. Qed.

Lemma lit_channel_kinds_distinct :
  lit "channel" <> lit "im" /\ lit "group" <> lit "im"
  /\ lit "mpim" <> lit "im" /\ lit "mpim" <> lit "channel" /\ lit "mpim" <> lit "group".
Proof. repeat split; intros H; vm_compute in H; discriminate H. Qed.

(** The three channel classes of lines 65-67 exclude one another. *)
Lemma room_is_not_direct (t : option jsstr) :
  isRoomType t = true -> isDirectMessageType t = false.
Proof.
  unfold isRoomType, isDirectMessageType. intros H.
  destruct lit_channel_kinds_distinct as (Hc & Hg & _).
  apply orb_true_iff in H as [H|H]; apply optStrEq_true in H; subst t; simpl;
    apply bool_decide_eq_false_2; assumption.
Qed.

Lemma groupDm_is_neither (t : option jsstr) :
  isGroupDmType t = true -> isDirectMessageType t = false /\ isRoomType t = false.
Proof.
  unfold isGroupDmType, isRoomType, isDirectMessageType. intros H.
  destruct lit_channel_kinds_distinct as (_ & _ & Hi & Hc & Hg).
  apply optStrEq_true in H; subst t; simpl. unfold strEq.
  rewrite !bool_decide_eq_false_2 by assumption. split; reflexivity.
Qed.

(** ** The run from a point inside the [try] block *)

Section Stages.

Context (w : World) (lib : Imports) (ctx : SlackMonitorContext)
        (account : ResolvedSlackAccount) (sc : SlashCommandConfig).

Lemma emits_dispatchReplyWithDispatcher (P : event -> Prop) args :
  P (EvDispatchCall args) -> (forall ev, fromDispatcher ev -> P ev) ->
  emits P (dispatchReplyWithDispatcher w lib ctx sc args).
Proof.
  intros Hcall Hrest h. unfold dispatchReplyWithDispatcher.
  pose proof (@emits_runDispatcher w lib ctx sc P
                (w_dispatchReplyWithDispatcher w h args) Hrest
                (h ++ [EvDispatchCall args])) as Hrun.
  destruct (runDispatcher w lib ctx sc (w_dispatchReplyWithDispatcher w h args)
              (h ++ [EvDispatchCall args])) as [evs c].
  simpl in *. constructor; assumption.
Qed.

(** Nothing after the store read acknowledges, resolves the channel or
    reads the store again. *)
Lemma emits_authorizeAndDispatch p info store :
  emits afterStoreRead (authorizeAndDispatch w lib ctx account sc p info store).
Proof.
  unfold authorizeAndDispatch, directMessageBlock, roomBlock, respond, resolveUserName,
    upsertChannelPairingRequest, deliverSlackSlashReplies, dateNow.
  repeat first
    [ apply emits_dispatchReplyWithDispatcher;
      [exact I | intros [] Hev; try contradiction; exact I]
    | apply emits_bind; [| intros ?]
    | apply emits_when
    | apply emits_ret
    | apply emits_return
    | apply emits_perform; intros ?; exact I
    | match goal with |- emits _ (if ?c then _ else _) => destruct c end
    | intros h; constructor ].
Qed.

Lemma emits_afterChannelInfo p info :
  emits afterResolution (afterChannelInfo w lib ctx account sc p info).
Proof.
  unfold afterChannelInfo, readStoreAllowFrom, readChannelAllowFromStore, respond.
  repeat first
    [ apply (emits_weaken (P:=afterStoreRead));
      [intros [] Hev; try contradiction; exact I | apply emits_authorizeAndDispatch]
    | apply emits_bind; [| intros ?]
    | apply emits_when
    | apply emits_catchPromise
    | apply emits_return
    | apply emits_perform; intros ?; exact I ].
Qed.

(** A fulfilled channel resolution in the trace tells how the run began. *)
Lemma resolution_reached p info channelId :
  In (EvResolveChannelName channelId (Fulfilled info))
     (handleSlashCommand w lib ctx account sc p).1 ->
  reachesResolution w ctx p info.
Proof.
  unfold reachesResolution.
  destruct (handleSlashCommand w lib ctx account sc p) as [t out] eqn:Hrun.
  cbn [fst snd]. revert t out Hrun.
  unfold_entry.
  repeat match goal with
    | |- context [afterChannelInfo ?w ?lib ?ctx ?acc ?sc ?p ?i ?h] =>
        let Hs := fresh "Hafter" in
        pose proof (@emits_afterChannelInfo p i h) as Hs;
        destruct (afterChannelInfo w lib ctx acc sc p i h) as [? ?]; simpl in Hs |- *
    | _ => run_step
    end.
  all: intros ? ? [= <- <-]; intros Hin; member Hin.
  all: simplify_eq.
  all: repeat match goal with u : unit |- _ => destruct u end.
  all: try (apply negb_false_iff in Heqb).
  all: repeat split; assumption.
Qed.

(** From there the rest of the run is [afterChannelInfo]. *)
Lemma run_from_resolution p info :
  reachesResolution w ctx p info ->
  handleSlashCommand w lib ctx account sc p
  = resume w lib (resolutionHistory p info)
      (afterChannelInfo w lib ctx account sc p info).
Proof.
  intros (Hp & Hack & Hself & Hres).
  unfold resume, resolutionHistory. unfold_entry.
  rewrite Hp. simpl. rewrite Hack. simpl. rewrite Hself. simpl. rewrite Hres. simpl.
  destruct (afterChannelInfo w lib ctx account sc p info _) as [evs [[]| |e]]; simpl;
    try reflexivity.
  destruct (catchBlock w lib e _) as [evs' [[]| |e']]; reflexivity.
Qed.

End Stages.

(** Reading what remains of a run. *)
Ltac read_resumed :=
  match goal with
  | |- context [resume ?w ?lib ?h ?m] =>
      let t := fresh "t" in
      let out := fresh "out" in
      let Hrun := fresh "Hrun" in
      destruct (resume w lib h m) as [t out] eqn:Hrun;
      cbn [fst snd]; revert t out Hrun
  end;
  unfold resume, tryCatch; simpl; repeat run_step;
  intros ? ? [= <- <-].

(** Reading a run down to the store read, keeping what follows folded. *)
Ltac read_to_pipeline :=
  match goal with
  | |- context [handleSlashCommand ?w ?lib ?ctx ?acc ?sc ?p] =>
      let t := fresh "t" in
      let out := fresh "out" in
      let Hrun := fresh "Hrun" in
      destruct (handleSlashCommand w lib ctx acc sc p) as [t out] eqn:Hrun;
      cbn [fst snd]; revert t out Hrun
  end;
  unfold_handler;
  repeat match goal with
    | |- context [authorizeAndDispatch ?w ?lib ?ctx ?acc ?sc ?p ?i ?s ?h] =>
        let Hs := fresh "Hafter" in
        let Hp := fresh "Hpipeline" in
        pose proof (@emits_authorizeAndDispatch w lib ctx acc sc p i s h) as Hs;
        destruct (authorizeAndDispatch w lib ctx acc sc p i s h) as [? ?] eqn:Hp;
        simpl in Hs |- *
    | _ => run_step
    end;
  intros ? ? [= <- <-].

Lemma bind_ext {A B} (m m' : M A) (f g : A -> M B) (h : trace) :
  m h = m' h -> (forall a h', f a h' = g a h') -> bind m f h = bind m' g h.
Proof.
  intros Hm Hf. unfold bind. rewrite Hm.
  destruct (m' h) as [evs [a| |e]]; [rewrite Hf |..]; reflexivity.
Qed.

Lemma bind_ret_ext {A B} (a : A) (f g : A -> M B) (h : trace) :
  (forall h', f a h' = g a h') -> bind (ret a) f h = bind (ret a) g h.
Proof. intros Hf. unfold bind, ret. rewrite Hf. reflexivity. Qed.

(** ** The [allowed] flag without access-group enforcement *)

Section AllowedFlag.

Context (w : World) (lib : Imports) (ctx : SlackMonitorContext)
        (account : ResolvedSlackAccount) (sc : SlashCommandConfig)
        (flag : SlackChannelConfigResolved -> bool).
Hypothesis Hoff : useAccessGroups ctx = false.

Lemma authorizeAndDispatch_without_access_groups p info store h :
  authorizeAndDispatch w (overridingAllowed flag lib) ctx account sc p info store h
  = authorizeAndDispatch w lib ctx account sc p info store h.
Proof.
  unfold authorizeAndDispatch. cbv zeta.
  apply bind_ext; [reflexivity |]. intros authorized h1.
  destruct (isRoomType (channelTypeOf info (command p))); [| reflexivity].
  unfold roomBlock. cbv zeta. rewrite Hoff.
  cbn [overridingAllowed resolveSlackChannelConfig].
  destruct (resolveSlackChannelConfig lib (channel_id (command p)) (info ≫= ci_name)
              (channelsConfig ctx) (defaultRequireMention ctx)) as [c|]; reflexivity.
Qed.

Lemma tryBlock_without_access_groups p h :
  tryBlock w (overridingAllowed flag lib) ctx account sc p h
  = tryBlock w lib ctx account sc p h.
Proof.
  unfold tryBlock.
  apply bind_ext; [reflexivity |]. intros _ h1.
  apply bind_ext; [reflexivity |]. intros _ h2.
  apply bind_ext; [reflexivity |]. intros _ h3.
  apply bind_ext; [reflexivity |]. intros info h4.
  unfold afterChannelInfo.
  apply bind_ext; [reflexivity |]. intros _ h5.
  apply bind_ext; [reflexivity |]. intros store h6.
  apply authorizeAndDispatch_without_access_groups.
Qed.

(** With access-group enforcement off, the run does not depend on the
    [allowed] flag of any resolved channel config. *)
Lemma run_without_access_groups p :
  handleSlashCommand w (overridingAllowed flag lib) ctx account sc p
  = handleSlashCommand w lib ctx account sc p.
Proof.
  unfold handleSlashCommand, asyncCall, handleSlashCommandBody, tryCatch.
  rewrite tryBlock_without_access_groups. reflexivity.
Qed.

End AllowedFlag.

(** * Theorems about the handler *)

(** C1, as amended: with access-group enforcement on ([ctx.useAccessGroups]),
    a room command whose resolved channel config says [allowed: false] is
    answered "This channel is not allowed." and is never dispatched, whatever
    [isSlackRoomAllowedByPolicy] says.  With enforcement off the [allowed]
    flag is not consulted: the run, events and outcome, is the same whatever
    the flag of every resolved config is made to say. *)
Theorem disallowed_room_rejected_under_access_groups w lib ctx account sc p :
  (useAccessGroups ctx = true -> rejectsDisallowedRoom w lib ctx account sc p)
  /\ (useAccessGroups ctx = false ->
      forall flag : SlackChannelConfigResolved -> bool,
        handleSlashCommand w (overridingAllowed flag lib) ctx account sc p
        = handleSlashCommand w lib ctx account sc p).
Proof.
  split; [| intros Hoff flag; apply run_without_access_groups; exact Hoff].
  intros Hgroups info channelConfig Hin Hroom Hcfg Hallowed.
  pose proof (room_is_not_direct Hroom) as Hdm.
  assert (Hfalse : allowedIsFalse
            (resolveSlackChannelConfig lib (channel_id (command p)) (info ≫= ci_name)
               (channelsConfig ctx) (defaultRequireMention ctx)) = true)
    by (rewrite Hcfg; unfold allowedIsFalse; rewrite Hallowed; reflexivity).
  clear Hcfg Hallowed.
  pose proof (resolution_reached Hin) as Hreach. clear Hin.
  rewrite (run_from_resolution lib account sc Hreach).
  unfold dispatched, resolutionHistory.
  unfold afterChannelInfo, authorizeAndDispatch. cbv zeta. rewrite Hdm, Hroom.
  unfold roomBlock. cbv zeta. rewrite Hgroups, Hfalse.
  unfold readStoreAllowFrom, catchPromise, readChannelAllowFromStore.
  unfold_pipeline. rewrite orb_true_r. simpl.
  read_resumed.
  all: split; [eexists; find_member | intros (args & H'); member H'].
Qed.

(** C1 fails as worded: without access-group enforcement a room configured
    [allowed: false] is dispatched like any other. *)
Lemma disallowed_room_dispatched_without_access_groups :
  ~ rejectsDisallowedRoom C1Example.world Sample.imports (C1Example.context false)
      Sample.account Sample.slashCommand (Sample.slash "C1" "hi").
Proof.
  intros H.
  destruct (H (Sample.infoOfType "channel") C1Example.resolved) as [_ Hnot].
  - vm_compute. right. left. reflexivity.
  - vm_compute. reflexivity.
  - vm_compute. reflexivity.
  - reflexivity.
  - apply Hnot. eexists. vm_compute. do 4 right. left. reflexivity.
Qed.

Lemma disallowed_room_rejected_under_access_groups_witness :
  let p := Sample.slash "C1" "hi" in
  let run context :=
    handleSlashCommand C1Example.world Sample.imports context Sample.account
      Sample.slashCommand p in
  (useAccessGroups (C1Example.context true) = true
   /\ (exists o,
          In (EvRespond (ephemeralText "This channel is not allowed.") o)
             (run (C1Example.context true)).1)
   /\ ~ dispatched (run (C1Example.context true)).1)
  /\ (useAccessGroups (C1Example.context false) = false
      /\ handleSlashCommand C1Example.world
           (overridingAllowed (fun _ => true) Sample.imports) (C1Example.context false)
           Sample.account Sample.slashCommand p
         = run (C1Example.context false)).
Proof.
  intros p run. split.
  - split; [reflexivity |].
    apply (proj1 (@disallowed_room_rejected_under_access_groups
                    C1Example.world Sample.imports (C1Example.context true)
                    Sample.account Sample.slashCommand p) eq_refl
             (Sample.infoOfType "channel") C1Example.resolved).
    + vm_compute. right. left. reflexivity.
    + vm_compute. reflexivity.
    + vm_compute. reflexivity.
    + reflexivity.
  - split; [reflexivity |].
    exact (proj2 (@disallowed_room_rejected_under_access_groups
                    C1Example.world Sample.imports (C1Example.context false)
                    Sample.account Sample.slashCommand p) eq_refl (fun _ => true)).
Defined.

(** C2: a blank prompt is answered by [ack] itself, with the ephemeral
    message "Message required."; the dispatcher is never called and the plain
    [ack()] never happens.  Unless that [ack] fails, nothing else happens at
    all. *)
Theorem blank_prompt_rejected w lib ctx account sc p :
  blank (prompt p) ->
  let run := handleSlashCommand w lib ctx account sc p in
  (exists o rest,
      run.1 = EvAck (Some (ephemeralText "Message required.")) o :: rest
      /\ Forall fromCatch rest
      /\ (o = Fulfilled tt -> rest = [] /\ run.2 = Fulfilled tt))
  /\ ~ dispatched run.1
  /\ ~ acknowledgedPlainly run.1.
Proof.
  intros Hb run. apply trim_falsy_iff in Hb.
  assert (Hshape : exists o rest,
      run.1 = EvAck (Some (ephemeralText "Message required.")) o :: rest
      /\ Forall fromCatch rest
      /\ (o = Fulfilled tt -> rest = [] /\ run.2 = Fulfilled tt)).
  { subst run. unfold_handler. rewrite Hb. simpl.
    destruct (w_ack w [] (Some (ephemeralText "Message required."))) as [[]|e]; simpl.
    - eexists _, []. repeat split; constructor.
    - run_step. eexists _, _. split; [destruct c; reflexivity |].
      split; [assumption | discriminate]. }
  split; [exact Hshape |].
  destruct Hshape as (o & rest & -> & Hrest & _).
  split; [intros [args H] | intros [o' H]]; member H.
Qed.

Lemma blank_prompt_rejected_witness :
  let p := Sample.slash "C1" "   " in
  let run :=
    handleSlashCommand
      (Sample.world [] (Sample.infoOfType "channel")
         {| code := lit "K"; created := true |} Sample.oneReply)
      Sample.imports (Sample.context None false (lit "open"))
      Sample.account Sample.slashCommand p in
  blank (prompt p) /\ ~ dispatched run.1 /\ ~ acknowledgedPlainly run.1.
Proof.
  intros p run.
  assert (Hblank : blank (prompt p)) by (vm_compute; repeat constructor).
  split; [exact Hblank |].
  exact (proj2 (@blank_prompt_rejected
                  (Sample.world [] (Sample.infoOfType "channel")
                     {| code := lit "K"; created := true |} Sample.oneReply)
                  Sample.imports (Sample.context None false (lit "open"))
                  Sample.account Sample.slashCommand p Hblank)).
Defined.

(** A [try] block that begins with a call: the call is the first event of
    the run, and when it fails the rest of the run is the [catch] block. *)
Lemma run_begins_with_call {A} (ev : outcome A -> event) oracle (k : A -> M unit)
    (handler : exn -> M unit) :
  let run := asyncCall (tryCatch (bind (ret tt) (fun _ => bind (perform ev oracle) k)) handler) in
  exists rest,
    run.1 = ev (oracle []) :: rest
    /\ (forall e, oracle [] = Rejected e -> rest = (handler e [ev (Rejected e)]).1).
Proof.
  unfold asyncCall, tryCatch, bind, perform, ret. simpl.
  destruct (oracle []) as [a|e] eqn:Ho; simpl.
  - destruct (k a [ev (Fulfilled a)]) as [evs [u| |e]]; simpl.
    1,2: eexists; split; [reflexivity | discriminate].
    destruct (handler e (ev (Fulfilled a) :: evs)) as [evs' [u| |e']]; simpl;
      eexists; (split; [reflexivity | discriminate]).
  - destruct (handler e [ev (Rejected e)]) as [evs' c] eqn:Hh; simpl.
    exists evs'. split; [destruct c; reflexivity |].
    intros e' [= <-]. rewrite Hh. reflexivity.
Qed.

(** C3: for a prompt that is not blank, the first thing the handler does is
    the plain [ack()]; channel-name resolution, the allow-list store read and
    the dispatch all come later in the trace, and none of them happens unless
    that [ack] was fulfilled. *)
Theorem ack_precedes_slow_work w lib ctx account sc p :
  truthy (trim (prompt p)) = true ->
  let run := handleSlashCommand w lib ctx account sc p in
  exists o rest,
    run.1 = EvAck None o :: rest
    /\ (forall i ev, run.1 !! i = Some ev -> slowWork ev -> 0 < i)
    /\ (o <> Fulfilled tt -> Forall (fun ev => ~ slowWork ev) rest).
Proof.
  intros Hp run.
  destruct (run_begins_with_call (EvAck None) (fun h => w_ack w h None)
              (fun _ => bind (when (isSelfMessage ctx (command p)) return_)
                 (fun _ => bind (resolveChannelName w (channel_id (command p)))
                    (afterChannelInfo w lib ctx account sc p)))
              (catchBlock w lib)) as (rest & Hrun & Hrest).
  assert (Hsame : run.1 = EvAck None (w_ack w [] None) :: rest).
  { rewrite <- Hrun. subst run.
    unfold handleSlashCommand, handleSlashCommandBody, tryBlock. rewrite Hp. reflexivity. }
  exists (w_ack w [] None), rest. split; [exact Hsame |]. split.
  - intros [|i] ev Hi Hev; [| lia].
    rewrite Hsame in Hi. injection Hi as <-. contradiction.
  - intros Ho. destruct (w_ack w [] None) as [[]|e] eqn:Hack; [congruence |].
    rewrite (Hrest e eq_refl).
    eapply Forall_impl; [apply (@emits_catchBlock w lib fromCatch e (fun _ H => H)) |].
    intros [] Hc Hs; contradiction.
Qed.

Lemma ack_precedes_slow_work_witness :
  let p := Sample.slash "C1" "hi" in
  let run :=
    handleSlashCommand
      (Sample.world [] (Sample.infoOfType "channel")
         {| code := lit "K"; created := true |} Sample.oneReply)
      Sample.imports (Sample.context None false (lit "open"))
      Sample.account Sample.slashCommand p in
  truthy (trim (prompt p)) = true
  /\ exists o rest,
       run.1 = EvAck None o :: rest
       /\ (forall i ev, run.1 !! i = Some ev -> slowWork ev -> 0 < i)
       /\ (o <> Fulfilled tt -> Forall (fun ev => ~ slowWork ev) rest).
Proof.
  split; [reflexivity |].
  apply (@ack_precedes_slow_work
           (Sample.world [] (Sample.infoOfType "channel")
              {| code := lit "K"; created := true |} Sample.oneReply)
           Sample.imports (Sample.context None false (lit "open"))
           Sample.account Sample.slashCommand (Sample.slash "C1" "hi")).
  reflexivity.
Defined.

(** ** The resolver modelled from the spec *)

(** The three cases of [channel-config.test.ts]. *)
Example resolve_empty_channels_default_false :
  channel_config.resolveSlackChannelConfig (lit "C1") None (Some ∅) (Some false)
  = {| allowed := true; requireMention := false; users := None;
       systemPrompt := None; skills := None |}.
Proof. reflexivity. Qed.

Example resolve_empty_channels_no_default :
  channel_config.resolveSlackChannelConfig (lit "C1") None (Some ∅) None
  = {| allowed := true; requireMention := true; users := None;
       systemPrompt := None; skills := None |}.
Proof. reflexivity. Qed.

Example resolve_wildcard_overrides_default :
  requireMention
    (channel_config.resolveSlackChannelConfig (lit "C1") None
       (Some {[ lit "*" := {| cfg_requireMention := Some true; cfg_allowed := None;
                              cfg_users := None; cfg_systemPrompt := None;
                              cfg_skills := None |} ]})
       (Some false))
  = true.
Proof. vm_compute. reflexivity. Qed.

(** C4: a channel that matches no entry of the channels mapping (neither by
    id, nor by name, nor through the wildcard), resolved without a
    [defaultRequireMention], gets [requireMention = true] and
    [allowed = true]. *)
Theorem unmatched_channel_defaults (channelId : jsstr) (channelName : option jsstr)
    (channels : option (gmap jsstr ChannelConfig)) :
  default ∅ channels !! channelId = None ->
  (forall n, channelName = Some n -> default ∅ channels !! n = None) ->
  default ∅ channels !! lit "*" = None ->
  let resolved :=
    channel_config.resolveSlackChannelConfig channelId channelName channels None in
  requireMention resolved = true /\ allowed resolved = true.
Proof.
  intros Hid Hname Hwild resolved. subst resolved.
  unfold channel_config.resolveSlackChannelConfig.
  assert (Hnone : channel_config.lookupEntry channelId channelName (default ∅ channels)
                  = None).
  { unfold channel_config.lookupEntry. rewrite Hid.
    destruct channelName as [n|]; simpl; [rewrite (Hname n eq_refl) |]; exact Hwild. }
  rewrite Hnone. split; reflexivity.
Qed.

Lemma unmatched_channel_defaults_witness :
  let channels : option (gmap jsstr ChannelConfig) :=
    Some {[ lit "C9" := C1Example.closed ]} in
  let resolved :=
    channel_config.resolveSlackChannelConfig (lit "C1") (Some (lit "general")) channels None in
  default ∅ channels !! lit "C1" = None
  /\ (forall n, Some (lit "general") = Some n -> default ∅ channels !! n = None)
  /\ default ∅ channels !! lit "*" = None
  /\ requireMention resolved = true /\ allowed resolved = true.
Proof.
  intros channels resolved.
  assert (Hid : default ∅ channels !! lit "C1" = None) by (vm_compute; reflexivity).
  assert (Hname : forall n, Some (lit "general") = Some n -> default ∅ channels !! n = None)
    by (intros n [= <-]; vm_compute; reflexivity).
  assert (Hwild : default ∅ channels !! lit "*" = None) by (vm_compute; reflexivity).
  split; [exact Hid |]. split; [exact Hname |]. split; [exact Hwild |].
  exact (@unmatched_channel_defaults (lit "C1") (Some (lit "general")) channels
           Hid Hname Hwild).
Defined.

(** C5: whenever the pairing upsert is called and answers, the DM policy is
    "pairing"; the pairing instructions are sent exactly when the answer says
    [created]; when it says otherwise [respond] is never called in that
    invocation; and the dispatcher is not called either way. *)
Theorem pairing_reply_only_when_created w lib ctx account sc p req r :
  let run := handleSlashCommand w lib ctx account sc p in
  In (EvUpsertChannelPairingRequest req (Fulfilled r)) run.1 ->
  dmPolicy ctx = lit "pairing"
  /\ (created r = true ->
      exists o,
        In (EvRespond
              {| text := buildPairingReply lib (lit "slack")
                           (lit "Your Slack user id: " ++ user_id (command p)) (code r);
                 response_type := lit "ephemeral" |} o) run.1)
  /\ (created r = false -> ~ responded run.1)
  /\ ~ dispatched run.1.
Proof.
  intros run. subst run. unfold responded, dispatched.
  read_run.
  all: intros H; member H.
  all: simplify_eq.
  all: split; [apply strEq_true; assumption |].

  all: split; [intros Hc; try congruence; eexists; find_member |].
  all: split; [intros Hc; try congruence; intros (arg & o' & H'); member H' |].
  all: intros (args & H'); member H'.
Qed.

Lemma pairing_reply_only_when_created_witness :
  let world :=
    Sample.world [] (Sample.infoOfType "im")
      {| code := lit "K7"; created := true |} Sample.oneReply in
  let context := Sample.context None false (lit "pairing") in
  let p := Sample.slash "D1" "hi" in
  let req := {| pr_channel := lit "slack"; pr_id := lit "U1"; pr_meta_name := None |} in
  let r := {| code := lit "K7"; created := true |} in
  let run :=
    handleSlashCommand world Sample.imports context Sample.account Sample.slashCommand p in
  In (EvUpsertChannelPairingRequest req (Fulfilled r)) run.1
  /\ dmPolicy context = lit "pairing"
  /\ (created r = true ->
      exists o,
        In (EvRespond
              {| text := buildPairingReply Sample.imports (lit "slack")
                           (lit "Your Slack user id: " ++ user_id (command p)) (code r);
                 response_type := lit "ephemeral" |} o) run.1)
  /\ (created r = false -> ~ responded run.1)
  /\ ~ dispatched run.1.
Proof.
  intros world context p req r run.
  assert (Hin : In (EvUpsertChannelPairingRequest req (Fulfilled r)) run.1)
    by (vm_compute; do 4 right; left; reflexivity).
  split; [exact Hin |].
  exact (@pairing_reply_only_when_created world Sample.imports context Sample.account
           Sample.slashCommand p req r Hin).
Defined.

Lemma answersEmptyDispatch_app d (l t : trace) :
  Forall unsettled l -> answersEmptyDispatch d t -> answersEmptyDispatch d (l ++ t).
Proof.
  intros Hl Ht. induction Hl as [|ev l Hev Hl IH]; [exact Ht |].
  destruct ev; try contradiction; exact IH.
Qed.

Lemma answersEmptyDispatch_callbacks d (cbs t : trace) :
  Forall fromCallbacks cbs -> answersEmptyDispatch d t -> answersEmptyDispatch d (cbs ++ t).
Proof.
  intros H. apply answersEmptyDispatch_app.
  eapply Forall_impl; [exact H |]. intros [] Hev; try contradiction; exact I.
Qed.

Lemma answersEmptyDispatch_catch d (l : trace) :
  Forall fromCatch l -> answersEmptyDispatch d l.
Proof.
  intros H. rewrite <- (app_nil_r l). apply answersEmptyDispatch_app; [| exact I].
  eapply Forall_impl; [exact H |]. intros [] Hev; try contradiction; exact I.
Qed.

Lemma answersEmptyDispatch_split d (t pre post : trace) counts :
  answersEmptyDispatch d t ->
  t = pre ++ EvDispatchSettled (Fulfilled counts) :: post ->
  (final counts + tool counts + block counts =? 0)%float = true ->
  exists o post', post = EvDeliver d o :: post'.
Proof.
  revert t. induction pre as [|ev pre IH]; intros t Ht -> Hzero.
  - destruct Ht as [Ht _]. exact (Ht Hzero).
  - apply (IH (pre ++ EvDispatchSettled (Fulfilled counts) :: post)); [| reflexivity | exact Hzero].
    simpl in Ht. destruct ev as [| | | | | | |[c|e]| |]; try exact Ht. exact (proj2 Ht).
Qed.

(** C7: whenever the dispatcher settles with counts that add up to zero (in
    particular when [final], [tool] and [block] are all zero), the very next
    thing the handler does is a delivery with an empty list of replies.  The
    sum is the one the code computes, on doubles. *)
Theorem zero_replies_answered w lib ctx account sc p pre counts post :
  let run := handleSlashCommand w lib ctx account sc p in
  run.1 = pre ++ EvDispatchSettled (Fulfilled counts) :: post ->
  (final counts + tool counts + block counts =? 0)%float = true ->
  exists o post', post = EvDeliver (emptyDelivery ctx sc) o :: post'.
Proof.
  intros run Hsplit Hzero.
  apply (@answersEmptyDispatch_split (emptyDelivery ctx sc) run.1 pre post counts);
    [| exact Hsplit | exact Hzero].
  clear. subst run. unfold emptyDelivery.
  read_run.
  all: try (simpl; exact I).
  all: try (simpl; apply answersEmptyDispatch_catch; assumption).
  all: rewrite <- ?app_assoc; cbn [answersEmptyDispatch app].
  all: apply answersEmptyDispatch_callbacks; [assumption |].
  all: cbn [answersEmptyDispatch app].
  all: repeat split; try exact I; try (apply answersEmptyDispatch_catch; assumption).
  all: intros Hz;
    first [ eexists _, _; reflexivity
          | match goal with
            | H : (_ =? 0)%float = false |- _ => congruence
            end ].
Qed.

Lemma zero_replies_answered_witness :
  let context := Sample.context None false (lit "open") in
  let run :=
    handleSlashCommand
      (Sample.world [] (Sample.infoOfType "mpim")
         {| code := lit "K"; created := true |} Sample.noReplies)
      Sample.imports context Sample.account Sample.slashCommand (Sample.slash "G1" "hi") in
  let counts := {| final := 0; tool := 0; block := 0 |} in
  let pre := firstn 5 run.1 in
  let post := skipn 6 run.1 in
  run.1 = pre ++ EvDispatchSettled (Fulfilled counts) :: post
  /\ (final counts + tool counts + block counts =? 0)%float = true
  /\ exists o post', post = EvDeliver (emptyDelivery context Sample.slashCommand) o :: post'.
Proof.
  intros context run counts pre post.
  split; [vm_compute; reflexivity |]. split; [reflexivity |].
  apply (@zero_replies_answered
           (Sample.world [] (Sample.infoOfType "mpim")
              {| code := lit "K"; created := true |} Sample.noReplies)
           Sample.imports context Sample.account Sample.slashCommand
           (Sample.slash "G1" "hi") pre counts post).
  - vm_compute. reflexivity.
  - reflexivity.
Defined.

(** The sum of line 258 is a sum of doubles: counts of [2^53], [1] and
    [-2^53] add up to [0] there, and are answered with the empty delivery. *)
Lemma rounded_counts_are_answered :
  let context := Sample.context None false (lit "open") in
  let counts := {| final := 0x1p53; tool := 1; block := -0x1p53 |} in
  let run :=
    handleSlashCommand
      (Sample.world [] (Sample.infoOfType "mpim")
         {| code := lit "K"; created := true |}
         (DispatchSettle (Fulfilled counts)))
      Sample.imports context Sample.account Sample.slashCommand (Sample.slash "G1" "hi") in
  skipn 5 run.1
  = [EvDispatchSettled (Fulfilled counts);
     EvDeliver (emptyDelivery context Sample.slashCommand) (Fulfilled tt)].
Proof. vm_compute. reflexivity. Qed.

(** C8 fails as worded: when [respond] itself rejects inside the [catch]
    block, the handler's promise rejects; the exception leaves the handler. *)
Lemma failure_escapes_when_respond_fails :
  let run :=
    handleSlashCommand C8Example.world Sample.imports C8Example.context
      Sample.account Sample.slashCommand (Sample.slash "D1" "hi") in
  run
  = ([EvAck None (Fulfilled tt);
      EvResolveChannelName (lit "D1") (Fulfilled (Sample.infoOfType "im"));
      EvReadChannelAllowFromStore (lit "slack") (Fulfilled []);
      EvRespond (ephemeralText "Slack DMs are disabled.") (Rejected C8Example.expired);
      EvRuntimeError (lit "slack slash handler failed: expired_url") (Fulfilled tt);
      EvRespond genericFailure (Rejected C8Example.expired)],
     Rejected C8Example.expired)
  /\ run.2 <> Fulfilled tt.
Proof. split; [vm_compute; reflexivity | vm_compute; discriminate]. Qed.

(** Every run begins with a call of [ack]. *)
Lemma run_begins_with_ack w lib ctx account sc p :
  exists arg o rest, (handleSlashCommand w lib ctx account sc p).1 = EvAck arg o :: rest.
Proof.
  destruct (truthy (trim (prompt p))) eqn:Hp.
  - destruct (run_begins_with_call (EvAck None) (fun h => w_ack w h None)
              (fun _ => bind (when (isSelfMessage ctx (command p)) return_)
                 (fun _ => bind (resolveChannelName w (channel_id (command p)))
                    (afterChannelInfo w lib ctx account sc p)))
              (catchBlock w lib)) as (rest & Hrun & _).
    exists None, (w_ack w [] None), rest. rewrite <- Hrun.
    unfold handleSlashCommand, handleSlashCommandBody, tryBlock. rewrite Hp. reflexivity.
  - unfold_entry. rewrite Hp. simpl.
    destruct (w_ack w [] (Some (ephemeralText "Message required."))) as [[]|e]; simpl.
    + eexists _, _, _. reflexivity.
    + destruct (catchBlock w lib e _) as [evs [[]| |e']]; eexists _, _, _; reflexivity.
Qed.

(** C8, as amended: every run begins with a call of [ack].  When the [try]
    block does not throw, the run is the [try] block's and the promise is
    fulfilled.  When it throws [e], the failure is logged if [runtime.error]
    exists, then [respond] is called once with the generic ephemeral failure
    message, and the promise settles as that [respond] did; if the logger
    itself throws, the run ends there and the promise rejects. *)
Theorem failure_fallback w lib ctx account sc p :
  let run := handleSlashCommand w lib ctx account sc p in
  let body := tryBlock w lib ctx account sc p [] in
  (exists arg o rest, run.1 = EvAck arg o :: rest)
  /\ ((forall e, body.2 <> Throw e) -> run = (body.1, Fulfilled tt))
  /\ (forall e, body.2 = Throw e ->
      (exists logged o,
          run = (body.1 ++ logged ++ [EvRespond genericFailure o], o)
          /\ (w_runtime_error w = None /\ logged = []
              \/ w_runtime_error w <> None
                 /\ logged = [EvRuntimeError (handlerFailedMessage lib e) (Fulfilled tt)]))
      \/ (exists e',
          w_runtime_error w <> None
          /\ run = (body.1 ++ [EvRuntimeError (handlerFailedMessage lib e) (Rejected e')],
                    Rejected e'))).
Proof.
  intros run body. split; [apply run_begins_with_ack |].
  subst run body.
  unfold handleSlashCommand, asyncCall, handleSlashCommandBody, tryCatch.
  destruct (tryBlock w lib ctx account sc p []) as [evs c]. cbn [fst snd].
  split.
  - intros Hc. destruct c as [[]| |e]; [reflexivity | reflexivity |].
    exfalso. exact (Hc e eq_refl).
  - intros e ->. simpl.
    unfold catchBlock, runtimeError, respond, bind, perform, ret, handlerFailedMessage,
      genericFailure.
    destruct (w_runtime_error w) as [f|] eqn:Hlog; cbv zeta.
    + destruct (f evs _) as [[]|e'] eqn:Hf; cbn [awaited].
      * left.
        match goal with
        | |- context [w_respond w ?h ?a] =>
            exists [EvRuntimeError
                      (danger lib (lit "slack slash handler failed: " ++ rendered e))
                      (Fulfilled tt)], (w_respond w h a)
        end.
        split.
        -- destruct (w_respond w _ _) as [[]|e'']; cbn [awaited app]; reflexivity.
        -- right. split; [discriminate | reflexivity].
      * right. exists e'. split; [discriminate | reflexivity].
    + left. exists [], (w_respond w (evs ++ [])
                          (ephemeralText "Sorry, something went wrong handling that command.")).
      split.
      * destruct (w_respond w _ _) as [[]|e'']; cbn [awaited app]; reflexivity.
      * left. split; reflexivity.
Qed.

(** ** The authorization flag *)

Lemma asyncCall_trace (m : M unit) : (asyncCall m).1 = (m []).1.
Proof. unfold asyncCall. destruct (m []) as [evs [[]| |e]]; reflexivity. Qed.

Ltac emits_quiet :=
  repeat first
    [ apply emits_bind; [| intros ?]
    | apply emits_when
    | apply emits_ret
    | apply emits_return
    | apply emits_catchPromise
    | apply emits_perform; intros ?; exact I
    | match goal with |- emits _ (if ?c then _ else _) => destruct c end ].

Section Authorized.

Context (w : World) (lib : Imports) (ctx : SlackMonitorContext)
        (account : ResolvedSlackAccount) (sc : SlashCommandConfig).

(** The direct-message block leaves [commandAuthorized] true whenever it is
    left by falling through. *)
Lemma directMessageBlock_yields_true cmd allowLower :
  yields (fun b => b = true) (directMessageBlock w lib ctx cmd allowLower true).
Proof.
  unfold directMessageBlock. apply yields_bind. intros _.
  destruct (negb (strEq (dmPolicy ctx) (lit "open"))).
  - apply yields_bind. intros sender. apply yields_bind. intros _.
    apply yields_ret. reflexivity.
  - apply yields_ret. reflexivity.
Qed.

Lemma directMessageBlock_emits cmd allowLower b :
  emits dispatchesAuthorized (directMessageBlock w lib ctx cmd allowLower b).
Proof.
  unfold directMessageBlock, respond, resolveUserName, upsertChannelPairingRequest.
  emits_quiet.
Qed.

Lemma roomBlock_emits cmd info :
  emits dispatchesAuthorized (roomBlock w lib ctx cmd info).
Proof. unfold roomBlock, respond. emits_quiet. Qed.

Lemma authorizeAndDispatch_dispatchesAuthorized p info store :
  emits dispatchesAuthorized (authorizeAndDispatch w lib ctx account sc p info store).
Proof.
  unfold authorizeAndDispatch.
  apply (emits_bind_yields (Q:=fun b => b = true)).
  - destruct (isDirectMessageType _); [apply directMessageBlock_emits | apply emits_ret].
  - destruct (isDirectMessageType _);
      [apply directMessageBlock_yields_true | apply yields_ret; reflexivity].
  - intros commandAuthorized ->.
    apply emits_bind; [destruct (isRoomType _); [apply roomBlock_emits | apply emits_ret] |].
    intros channelConfig. unfold resolveUserName, respond, dateNow, deliverSlackSlashReplies.
    apply emits_bind; [emits_quiet |]. intros sender.
    apply emits_bind; [emits_quiet |]. intros _.
    apply emits_bind; [intros h; constructor |]. intros timestamp.
    apply emits_bind; [| intros counts; emits_quiet].
    apply emits_dispatchReplyWithDispatcher.
    + reflexivity.
    + intros [] Hev; try contradiction; exact I.
Qed.

Lemma handleSlashCommandBody_dispatchesAuthorized p :
  emits dispatchesAuthorized (handleSlashCommandBody w lib ctx account sc p).
Proof.
  unfold handleSlashCommandBody. apply emits_tryCatch.
  - unfold tryBlock, afterChannelInfo, readStoreAllowFrom, ack, respond,
      resolveChannelName, readChannelAllowFromStore.
    repeat first
      [ apply authorizeAndDispatch_dispatchesAuthorized
      | apply emits_bind; [| intros ?]
      | apply emits_when
      | apply emits_return
      | apply emits_catchPromise
      | apply emits_perform; intros ?; exact I ].
  - intros e. apply emits_catchBlock. intros [] Hev; try contradiction; exact I.
Qed.

End Authorized.

(** C9: whenever the dispatcher is called, the context payload it receives
    has [CommandAuthorized] equal to [true]. *)
Theorem dispatched_command_is_authorized w lib ctx account sc p args :
  In (EvDispatchCall args) (handleSlashCommand w lib ctx account sc p).1 ->
  CommandAuthorized (da_ctx args) = true.
Proof.
  unfold handleSlashCommand. rewrite asyncCall_trace. intros Hin.
  exact (in_class (handleSlashCommandBody_dispatchesAuthorized w lib ctx account sc p [])
           Hin).
Qed.

Lemma dispatched_command_is_authorized_witness :
  let world :=
    Sample.world [] (Sample.infoOfType "im")
      {| code := lit "K"; created := true |} Sample.oneReply in
  let context := Sample.context None false (lit "open") in
  let p := Sample.slash "D1" "hi" in
  let timestamp := 0%Z in
  let args :=
    dispatchArgumentsOf Sample.imports context Sample.account Sample.slashCommand p
      (Sample.infoOfType "im") None (lit "ann") true timestamp in
  In (EvDispatchCall args)
     (handleSlashCommand world Sample.imports context Sample.account Sample.slashCommand p).1
  /\ CommandAuthorized (da_ctx args) = true.
Proof.
  intros world context p timestamp args.
  assert (Hin : In (EvDispatchCall args)
                  (handleSlashCommand world Sample.imports context Sample.account
                     Sample.slashCommand p).1)
    by (vm_compute; do 4 right; left; reflexivity).
  split; [exact Hin |].
  exact (@dispatched_command_is_authorized world Sample.imports context Sample.account
           Sample.slashCommand p args Hin).
Defined.

(** ** Group DMs *)

Section GroupDm.

Context (w : World) (lib lib' : Imports) (ctx ctx' : SlackMonitorContext)
        (account : ResolvedSlackAccount) (sc : SlashCommandConfig).
Hypothesis Hsame : sameBeyondPolicy lib lib' ctx ctx'.

Lemma catchBlock_same e h : catchBlock w lib' e h = catchBlock w lib e h.
Proof.
  destruct Hsame as (_ & _ & _ & _ & _ & _ & Hdanger).
  unfold catchBlock. rewrite Hdanger. reflexivity.
Qed.

Lemma runDispatcher_same r h :
  runDispatcher w lib' ctx' sc r h = runDispatcher w lib ctx sc r h.
Proof.
  destruct Hsame as (_ & _ & Htext & _ & _ & _ & Hdanger).
  revert h. induction r as [payload k IH|err info_kind k IH|o]; intros h;
    cbn [runDispatcher].
  - apply bind_ext; [| intros o h'; apply IH].
    unfold settle, deliverCallback. rewrite Htext. reflexivity.
  - apply bind_ext; [| intros o h'; apply IH].
    unfold settle, onErrorCallback. rewrite Hdanger. reflexivity.
  - reflexivity.
Qed.

Lemma dispatchArgumentsOf_same p info sender authorized timestamp :
  dispatchArgumentsOf lib' ctx' account sc p info None sender authorized timestamp
  = dispatchArgumentsOf lib ctx account sc p info None sender authorized timestamp.
Proof.
  destruct Hsame as (_ & Hteam & _ & _ & Hroute & Hprefix & _).
  unfold dispatchArgumentsOf, ctxPayloadOf, routeOf.
  rewrite Hteam, !Hroute, Hprefix. reflexivity.
Qed.

(** In a group DM, lines 63-265 do the same under both configurations. *)
Lemma afterChannelInfo_same p info h :
  isGroupDmType (channelTypeOf info (command p)) = true ->
  afterChannelInfo w lib' ctx' account sc p info h
  = afterChannelInfo w lib ctx account sc p info h.
Proof.
  intros Hgroup. destruct (groupDm_is_neither Hgroup) as [Hdm Hroom].
  destruct Hsame as (_ & _ & Htext & Hallowed & _ & _ & _).
  unfold afterChannelInfo. apply bind_ext; [rewrite Hallowed; reflexivity |].
  intros _ h1. apply bind_ext; [reflexivity |]. intros store h2.
  unfold authorizeAndDispatch. cbv zeta. rewrite Hdm, Hroom.
  apply bind_ret_ext. intros h3.
  apply bind_ret_ext. intros h4.
  apply bind_ext; [reflexivity |]. intros sender h5.
  apply bind_ext; [reflexivity |]. intros _ h6.
  apply bind_ext; [reflexivity |]. intros timestamp h7.
  apply bind_ext; [| intros counts h8; rewrite Htext; reflexivity].
  rewrite dispatchArgumentsOf_same. unfold dispatchReplyWithDispatcher.
  rewrite runDispatcher_same. reflexivity.
Qed.

Lemma isSelfMessage_same cmd : isSelfMessage ctx' cmd = isSelfMessage ctx cmd.
Proof.
  destruct Hsame as (Hbot & _). unfold isSelfMessage. rewrite Hbot. reflexivity.
Qed.

(** A group-DM command runs the same under both configurations. *)
Lemma groupDm_run_same p info :
  reachesResolution w ctx p info ->
  isGroupDmType (channelTypeOf info (command p)) = true ->
  handleSlashCommand w lib' ctx' account sc p
  = handleSlashCommand w lib ctx account sc p.
Proof.
  intros Hreach Hgroup.
  assert (Hreach' : reachesResolution w ctx' p info).
  { destruct Hreach as (Hp & Hack & Hself & Hres).
    repeat split; try assumption. rewrite isSelfMessage_same. exact Hself. }
  rewrite (run_from_resolution lib' account sc Hreach').
  rewrite (run_from_resolution lib account sc Hreach).
  unfold resume, tryCatch. rewrite (afterChannelInfo_same _ Hgroup).
  destruct (afterChannelInfo w lib ctx account sc p info _) as [evs [[]| |e]];
    try reflexivity.
  rewrite catchBlock_same. reflexivity.
Qed.

End GroupDm.

(** Without a channel config the system prompt is the channel description
    alone. *)
Lemma groupSystemPromptOf_without_config (description : jsstr) :
  groupSystemPromptOf description None
  = if truthy description
    then Some (lit "Channel description: " ++ description) else None.
Proof.
  unfold groupSystemPromptOf. destruct (truthy description); [| reflexivity].
  cbn [fmap mbind option_bind option_fmap option_map truthyOpt omap list_omap].
  vm_compute. reflexivity.
Qed.

(** What a group-DM run looks like: the generic channel check decides, and a
    dispatch carries nothing from a channel config. *)
Lemma groupDm_run_facts w lib ctx account sc p info :
  let run := handleSlashCommand w lib ctx account sc p in
  let description := channelDescriptionOf info in
  reachesResolution w ctx p info ->
  isGroupDmType (channelTypeOf info (command p)) = true ->
  (isChannelAllowed ctx (channelAllowedArguments p info) = false ->
   (exists o, In (EvRespond (ephemeralText "This channel is not allowed.") o) run.1)
   /\ ~ dispatched run.1)
  /\ (isChannelAllowed ctx (channelAllowedArguments p info) = true ->
      dispatched run.1
      \/ exists e, In (EvResolveUserName (user_id (command p)) (Rejected e)) run.1)
  /\ (forall args, In (EvDispatchCall args) run.1 ->
      da_skillFilter args = None
      /\ GroupSystemPrompt (da_ctx args)
         = (if truthy description
            then Some (lit "Channel description: " ++ description) else None)
      /\ ChatType (da_ctx args) = lit "group").
Proof.
  intros run description Hreach Hgroup. subst run description.
  destruct (groupDm_is_neither Hgroup) as [Hdm Hroom].
  rewrite (run_from_resolution lib account sc Hreach).
  unfold channelAllowedArguments, dispatched, resolutionHistory.
  unfold afterChannelInfo, authorizeAndDispatch. cbv zeta. rewrite Hdm, Hroom.
  unfold readStoreAllowFrom, catchPromise, readChannelAllowFromStore.
  unfold_pipeline.
  read_resumed.
  all: split; [| split].
  all: try (intros Hallowed; rewrite Hallowed in *; try discriminate).
  all: try (split; [eexists; find_member | intros (args & H'); member H']).
  all: try (first [ left; eexists; find_member; fail | right; eexists; find_member; fail ]).
  all: intros args H'; member H'; simplify_eq.
  all: unfold dispatchArgumentsOf, ctxPayloadOf;
    cbn [da_skillFilter da_ctx GroupSystemPrompt ChatType]; rewrite Hdm, Hroom, Hgroup.
  all: rewrite groupSystemPromptOf_without_config.
  all: repeat split; cbn [orb];
    try match goal with H : truthy _ = _ |- _ => rewrite H end; reflexivity.
Qed.

(** C10: in a group DM (channel type "mpim") the run does not depend on the
    DM switch and policy, the allow-lists, the channels mapping, the
    access-group switch and policy, or any helper that consults them.  The
    generic channel check alone decides: refused, the command is answered
    "This channel is not allowed." and not dispatched; admitted, it is
    dispatched unless the sender lookup fails.  A dispatch has no skill
    filter, its system prompt is the channel description alone, and its chat
    type is "group". *)
Theorem groupDm_only_generic_check w lib ctx account sc p info :
  let run := handleSlashCommand w lib ctx account sc p in
  let description := channelDescriptionOf info in
  In (EvResolveChannelName (channel_id (command p)) (Fulfilled info)) run.1 ->
  isGroupDmType (channelTypeOf info (command p)) = true ->
  (forall lib' ctx',
      sameBeyondPolicy lib lib' ctx ctx' ->
      handleSlashCommand w lib' ctx' account sc p = run)
  /\ (isChannelAllowed ctx (channelAllowedArguments p info) = false ->
      (exists o, In (EvRespond (ephemeralText "This channel is not allowed.") o) run.1)
      /\ ~ dispatched run.1)
  /\ (isChannelAllowed ctx (channelAllowedArguments p info) = true ->
      dispatched run.1
      \/ exists e, In (EvResolveUserName (user_id (command p)) (Rejected e)) run.1)
  /\ (forall args, In (EvDispatchCall args) run.1 ->
      da_skillFilter args = None
      /\ GroupSystemPrompt (da_ctx args)
         = (if truthy description
            then Some (lit "Channel description: " ++ description) else None)
      /\ ChatType (da_ctx args) = lit "group").
Proof.
  intros run description Hin Hgroup.
  pose proof (resolution_reached Hin) as Hreach.
  split.
  - intros lib' ctx' Hsame. exact (groupDm_run_same account sc Hsame Hreach Hgroup).
  - exact (groupDm_run_facts lib account sc Hreach Hgroup).
Qed.

Lemma groupDm_only_generic_check_witness :
  let p := Sample.slash "G1" "hi" in
  let info := Sample.infoOfType "mpim" in
  let run :=
    handleSlashCommand C10Example.world Sample.imports C10Example.context
      Sample.account Sample.slashCommand p in
  In (EvResolveChannelName (channel_id (command p)) (Fulfilled info)) run.1
  /\ isGroupDmType (channelTypeOf info (command p)) = true
  /\ (dispatched run.1
      \/ exists e, In (EvResolveUserName (user_id (command p)) (Rejected e)) run.1).
Proof.
  intros p info run.
  assert (Hin : In (EvResolveChannelName (channel_id (command p)) (Fulfilled info)) run.1)
    by (vm_compute; right; left; reflexivity).
  assert (Hgroup : isGroupDmType (channelTypeOf info (command p)) = true)
    by (vm_compute; reflexivity).
  split; [exact Hin |]. split; [exact Hgroup |].
  destruct (@groupDm_only_generic_check C10Example.world Sample.imports C10Example.context
              Sample.account Sample.slashCommand p info Hin Hgroup)
    as (_ & _ & Hopen & _).
  apply Hopen. reflexivity.
Defined.

(** * Further properties of the handler and of the registration *)

(** * Further properties of the handler *)

(** ** Facts that hold on every path *)

Lemma dispatchCount_app (l t : trace) :
  dispatchCount (l ++ t) = dispatchCount l + dispatchCount t.
Proof.
  induction l as [|ev l IH]; [reflexivity |].
  destruct ev; simpl; rewrite IH; reflexivity.
Qed.

Lemma dispatchCount_callbacks (cbs : trace) :
  Forall fromCallbacks cbs -> dispatchCount cbs = 0.
Proof.
  induction 1 as [|ev l Hev _ IH]; [reflexivity |].
  destruct ev; try contradiction; exact IH.
Qed.

Lemma dispatchCount_catch (l : trace) : Forall fromCatch l -> dispatchCount l = 0.
Proof.
  induction 1 as [|ev l Hev _ IH]; [reflexivity |].
  destruct ev; try contradiction; exact IH.
Qed.

Lemma atSettlement_app Q (l t : trace) :
  Forall unsettled l -> atSettlement Q t -> atSettlement Q (l ++ t).
Proof.
  intros Hl Ht. induction Hl as [|ev l Hev Hl IH]; [exact Ht |].
  destruct ev; try contradiction; exact IH.
Qed.

Lemma atSettlement_callbacks Q (cbs t : trace) :
  Forall fromCallbacks cbs -> atSettlement Q t -> atSettlement Q (cbs ++ t).
Proof.
  intros H. apply atSettlement_app.
  eapply Forall_impl; [exact H |]. intros [] Hev; try contradiction; exact I.
Qed.

Lemma atSettlement_catch Q (l : trace) : Forall fromCatch l -> atSettlement Q l.
Proof.
  intros H. rewrite <- (app_nil_r l). apply atSettlement_app; [| exact I].
  eapply Forall_impl; [exact H |]. intros [] Hev; try contradiction; exact I.
Qed.

Lemma atSettlement_split Q (t pre post : trace) counts :
  atSettlement Q t ->
  t = pre ++ EvDispatchSettled (Fulfilled counts) :: post ->
  Q counts post.
Proof.
  revert t. induction pre as [|ev pre IH]; intros t Ht ->.
  - exact (proj1 Ht).
  - apply (IH (pre ++ EvDispatchSettled (Fulfilled counts) :: post)); [| reflexivity].
    simpl in Ht. destruct ev as [| | | | | | |[c|e]| |]; try exact Ht. exact (proj2 Ht).
Qed.

(** The [catch] block logs and sends the generic failure message, nothing
    else. *)
Lemma catchBlock_fallback w lib e h : Forall fromFallback (catchBlock w lib e h).1.
Proof.
  unfold catchBlock, runtimeError, respond, bind, perform, ret.
  destruct (w_runtime_error w) as [f|]; cbv zeta.
  - destruct (f h _) as [[]|e']; cbn [awaited fst app].
    + destruct (w_respond w _ _) as [[]|e'']; cbn [awaited fst app];
        repeat constructor.
    + repeat constructor.
  - destruct (w_respond w _ _) as [[]|e'']; cbn [awaited fst app]; repeat constructor.
Qed.

(** On a path that has been read, what is known of each [catch] block. *)
Ltac fallback_facts :=
  repeat match goal with
    | Hc : catchBlock ?w ?lib ?e ?h = (?l, _), Hf : Forall fromCatch ?l |- _ =>
        let Hn := fresh "Hfallback" in
        pose proof (catchBlock_fallback w lib e h) as Hn;
        rewrite Hc in Hn; cbn [fst] in Hn; clear Hf
    end.

Ltac count_dispatches :=
  rewrite <- ?app_assoc;
  repeat first
    [ rewrite dispatchCount_app
    | match goal with
      | H : Forall fromCallbacks ?l |- context [dispatchCount ?l] =>
          rewrite (dispatchCount_callbacks H)
      | H : Forall fromCatch ?l |- context [dispatchCount ?l] =>
          rewrite (dispatchCount_catch H)
      end
    | progress cbn [dispatchCount app] ];
  lia.

Ltac settle_facts :=
  rewrite <- ?app_assoc; cbn [atSettlement app];
  first
    [ exact I
    | apply atSettlement_catch; assumption
    | apply atSettlement_callbacks; [assumption |];
      cbn [atSettlement app];
      first
        [ exact I
        | apply atSettlement_catch; assumption
        | split;
          [ intros Hnz;
            first
              [ match goal with
                | H : (_ =? 0)%float = true |- _ => congruence
                end
              | split; reflexivity ]
          | cbn [atSettlement app];
            first [exact I | apply atSettlement_catch; assumption] ] ] ].

Lemma run_discipline w lib ctx account sc p :
  let run := handleSlashCommand w lib ctx account sc p in
  dispatchCount run.1 <= 1
  /\ (dispatched run.1 ->
      truthy (trim (prompt p)) = true
      /\ ~ upserted run.1
      /\ forall arg o, In (EvRespond arg o) run.1 -> arg = genericFailure)
  /\ atSettlement
       (fun counts rest =>
          (final counts + tool counts + block counts =? 0)%float = false ->
          rest = [] /\ run.2 = Fulfilled tt)
       run.1
  /\ (forall args, In (EvDispatchCall args) run.1 ->
      Body (da_ctx args) = prompt p /\ SenderId (da_ctx args) = user_id (command p))
  /\ (forall req o, In (EvUpsertChannelPairingRequest req o) run.1 ->
      pr_channel req = lit "slack" /\ pr_id req = user_id (command p)).
Proof.
  intros run. subst run. unfold dispatched, upserted.
  read_run.
  all: split; [count_dispatches |].
  all: split;
    [ fallback_facts; intros (args & Hd); member Hd;
      (split; [apply negb_false_iff; assumption |]);
      (split; [intros (req & o & Hu); member Hu |]);
      intros arg o Hr; member Hr; assumption |].
  all: split; [settle_facts |].
  all: split;
    [ intros args Hd; member Hd; simplify_eq; split; reflexivity
    | intros req o Hu; member Hu; simplify_eq; split; reflexivity ].
Qed.

(** X1: the dispatcher is called at most once in a run. *)
Theorem dispatch_at_most_once w lib ctx account sc p :
  dispatchCount (handleSlashCommand w lib ctx account sc p).1 <= 1.
Proof. exact (proj1 (run_discipline w lib ctx account sc p)). Qed.

(** X2: a run that calls the dispatcher sends none of the rejection
    messages and makes no pairing request: the only [respond] the handler
    itself can make in such a run is the generic failure message. *)
Theorem dispatch_excludes_rejections w lib ctx account sc p args :
  let run := handleSlashCommand w lib ctx account sc p in
  In (EvDispatchCall args) run.1 ->
  ~ upserted run.1
  /\ forall arg o, In (EvRespond arg o) run.1 -> arg = genericFailure.
Proof.
  intros run Hin.
  destruct (run_discipline w lib ctx account sc p) as (_ & Hd & _).
  destruct (Hd (ex_intro _ args Hin)) as (_ & Hu & Hr). split; assumption.
Qed.

Lemma dispatch_excludes_rejections_witness :
  let context := Sample.context None false (lit "open") in
  let p := Sample.slash "D1" "hi" in
  let args :=
    dispatchArgumentsOf Sample.imports context Sample.account Sample.slashCommand p
      (Sample.infoOfType "im") None (lit "ann") true 0%Z in
  let run :=
    handleSlashCommand FailingDispatch.world Sample.imports context Sample.account
      Sample.slashCommand p in
  In (EvDispatchCall args) run.1
  /\ In (EvRespond genericFailure (Fulfilled tt)) run.1
  /\ ~ upserted run.1
  /\ forall arg o, In (EvRespond arg o) run.1 -> arg = genericFailure.
Proof.
  intros context p args run.
  assert (Hin : In (EvDispatchCall args) run.1)
    by (vm_compute; do 4 right; left; reflexivity).
  split; [exact Hin |].
  split; [vm_compute; do 7 right; left; reflexivity |].
  exact (@dispatch_excludes_rejections FailingDispatch.world Sample.imports context
           Sample.account Sample.slashCommand p args Hin).
Defined.

(** X3: when the dispatcher settles with counts that fail the test of line
    258 (their sum, computed on doubles, is not [=== 0]; a sum that is [NaN]
    included), the handler does nothing more: the settlement is the last
    event and the handler's promise is fulfilled. *)
Theorem replies_end_the_run w lib ctx account sc p pre counts post :
  let run := handleSlashCommand w lib ctx account sc p in
  run.1 = pre ++ EvDispatchSettled (Fulfilled counts) :: post ->
  (final counts + tool counts + block counts =? 0)%float = false ->
  post = [] /\ run.2 = Fulfilled tt.
Proof.
  intros run Hsplit Hnz.
  destruct (run_discipline w lib ctx account sc p) as (_ & _ & Hs & _).
  exact (atSettlement_split Hs Hsplit Hnz).
Qed.

Lemma replies_end_the_run_witness :
  let context := Sample.context None false (lit "open") in
  let run :=
    handleSlashCommand
      (Sample.world [] (Sample.infoOfType "mpim")
         {| code := lit "K"; created := true |} Sample.oneReply)
      Sample.imports context Sample.account Sample.slashCommand (Sample.slash "G1" "hi") in
  let counts := {| final := 1; tool := 0; block := 0 |} in
  let pre := firstn 6 run.1 in
  let post := skipn 7 run.1 in
  run.1 = pre ++ EvDispatchSettled (Fulfilled counts) :: post
  /\ (final counts + tool counts + block counts =? 0)%float = false
  /\ post = [] /\ run.2 = Fulfilled tt.
Proof.
  intros context run counts pre post.
  assert (Hsplit : run.1 = pre ++ EvDispatchSettled (Fulfilled counts) :: post)
    by (vm_compute; reflexivity).
  assert (Hnz : (final counts + tool counts + block counts =? 0)%float = false)
    by (vm_compute; reflexivity).
  split; [exact Hsplit |]. split; [exact Hnz |].
  exact (@replies_end_the_run
           (Sample.world [] (Sample.infoOfType "mpim")
              {| code := lit "K"; created := true |} Sample.oneReply)
           Sample.imports context Sample.account Sample.slashCommand
           (Sample.slash "G1" "hi") pre counts post Hsplit Hnz).
Defined.

(** X4: what is dispatched is the prompt as it came in, untrimmed, and it is
    never blank; the sender id is the command's user id. *)
Theorem dispatched_body_is_prompt w lib ctx account sc p args :
  In (EvDispatchCall args) (handleSlashCommand w lib ctx account sc p).1 ->
  Body (da_ctx args) = prompt p
  /\ ~ blank (Body (da_ctx args))
  /\ SenderId (da_ctx args) = user_id (command p).
Proof.
  intros Hin.
  destruct (run_discipline w lib ctx account sc p) as (_ & Hd & _ & Hb & _).
  destruct (Hb args Hin) as [Hbody Hsender].
  destruct (Hd (ex_intro _ args Hin)) as (Hp & _).
  split; [exact Hbody |]. split; [| exact Hsender].
  rewrite Hbody. intros Hblank. apply trim_falsy_iff in Hblank. congruence.
Qed.

Lemma dispatched_body_is_prompt_witness :
  let world :=
    Sample.world [] (Sample.infoOfType "im")
      {| code := lit "K"; created := true |} Sample.oneReply in
  let context := Sample.context None false (lit "open") in
  let p := Sample.slash "D1" "  hi " in
  let args :=
    dispatchArgumentsOf Sample.imports context Sample.account Sample.slashCommand p
      (Sample.infoOfType "im") None (lit "ann") true 0%Z in
  In (EvDispatchCall args)
     (handleSlashCommand world Sample.imports context Sample.account Sample.slashCommand p).1
  /\ Body (da_ctx args) = lit "  hi "
  /\ ~ blank (Body (da_ctx args))
  /\ SenderId (da_ctx args) = user_id (command p).
Proof.
  intros world context p args.
  assert (Hin : In (EvDispatchCall args)
                  (handleSlashCommand world Sample.imports context Sample.account
                     Sample.slashCommand p).1)
    by (vm_compute; do 4 right; left; reflexivity).
  split; [exact Hin |].
  exact (@dispatched_body_is_prompt world Sample.imports context Sample.account
           Sample.slashCommand p args Hin).
Defined.

(** X5: a pairing request is always made for channel "slack" and for the
    command's user id, and a run that makes one does not dispatch. *)
Theorem pairing_request_is_for_sender w lib ctx account sc p req o :
  let run := handleSlashCommand w lib ctx account sc p in
  In (EvUpsertChannelPairingRequest req o) run.1 ->
  pr_channel req = lit "slack"
  /\ pr_id req = user_id (command p)
  /\ ~ dispatched run.1.
Proof.
  intros run Hin.
  destruct (run_discipline w lib ctx account sc p) as (_ & Hd & _ & _ & Hu).
  destruct (Hu req o Hin) as [Hc Hi]. split; [exact Hc |]. split; [exact Hi |].
  intros Hdis. destruct (Hd Hdis) as (_ & Hnot & _).
  apply Hnot. exists req, o. exact Hin.
Qed.

Lemma pairing_request_is_for_sender_witness :
  let world :=
    Sample.world [] (Sample.infoOfType "im")
      {| code := lit "K7"; created := false |} Sample.oneReply in
  let context := Sample.context None false (lit "pairing") in
  let p := Sample.slash "D1" "hi" in
  let req := {| pr_channel := lit "slack"; pr_id := lit "U1"; pr_meta_name := None |} in
  let o := Fulfilled {| code := lit "K7"; created := false |} in
  let run :=
    handleSlashCommand world Sample.imports context Sample.account Sample.slashCommand p in
  In (EvUpsertChannelPairingRequest req o) run.1
  /\ pr_channel req = lit "slack"
  /\ pr_id req = user_id (command p)
  /\ ~ dispatched run.1.
Proof.
  intros world context p req o run.
  assert (Hin : In (EvUpsertChannelPairingRequest req o) run.1)
    by (vm_compute; do 4 right; left; reflexivity).
  split; [exact Hin |].
  exact (@pairing_request_is_for_sender world Sample.imports context Sample.account
           Sample.slashCommand p req o Hin).
Defined.

(** ** Acknowledgment, self messages, and the handler's promise *)

(** X6: every run calls [ack] exactly once, as its first call: with a
    message when the prompt is blank, without one otherwise. *)
Theorem acknowledged_exactly_once w lib ctx account sc p :
  let run := handleSlashCommand w lib ctx account sc p in
  exists arg o rest,
    run.1 = EvAck arg o :: rest
    /\ (forall arg' o', ~ In (EvAck arg' o') rest)
    /\ arg = (if truthy (trim (prompt p)) then None
              else Some (ephemeralText "Message required.")).
Proof.
  intros run. subst run.
  destruct (handleSlashCommand w lib ctx account sc p) as [t out] eqn:Hrun.
  cbn [fst snd]. revert t out Hrun.
  unfold_entry.
  repeat match goal with
    | |- context [afterChannelInfo ?w ?lib ?ctx ?acc ?sc ?p ?i ?h] =>
        let Hs := fresh "Hafter" in
        pose proof (@emits_afterChannelInfo w lib ctx acc sc p i h) as Hs;
        destruct (afterChannelInfo w lib ctx acc sc p i h) as [? ?]; simpl in Hs |- *
    | _ => run_step
    end.
  all: intros ? ? [= <- <-].
  all: try discriminate.
  all: try (apply negb_true_iff in Heqb || apply negb_false_iff in Heqb).
  all: try rewrite Heqb.
  all: eexists _, _, _; split; [reflexivity |]; split; [| reflexivity].
  all: intros arg' o' Hin; member Hin.
Qed.

(** X7: a command sent by the bot's own user is dropped in silence: after
    the plain [ack()] nothing else is called, provided that [ack] succeeds.
    The bot's user id must be present and non-empty for this to apply. *)
Theorem self_message_dropped w lib ctx account sc p bot :
  truthy (trim (prompt p)) = true ->
  botUserId ctx = Some bot ->
  bot <> [] ->
  user_id (command p) = bot ->
  let run := handleSlashCommand w lib ctx account sc p in
  exists o rest,
    run.1 = EvAck None o :: rest
    /\ Forall fromFallback rest
    /\ (o = Fulfilled tt -> run = ([EvAck None (Fulfilled tt)], Fulfilled tt)).
Proof.
  intros Hp Hbot Hne Huser run. subst run.
  assert (Hself : isSelfMessage ctx (command p) = true).
  { unfold isSelfMessage. rewrite Hbot, Huser.
    destruct bot; [congruence |]. simpl. apply bool_decide_eq_true_2. reflexivity. }
  unfold_entry. rewrite Hp, Hself. simpl.
  destruct (w_ack w [] None) as [[]|e] eqn:Hack; simpl.
  - eexists _, []. repeat split. constructor.
  - pose proof (catchBlock_fallback w lib e [EvAck None (Rejected e)]) as Hf.
    destruct (catchBlock w lib e _) as [l c]. cbn [fst] in Hf.
    eexists _, l. split; [destruct c; reflexivity |]. split; [exact Hf | discriminate].
Qed.

Lemma self_message_dropped_witness :
  let world :=
    Sample.world [] (Sample.infoOfType "channel")
      {| code := lit "K"; created := true |} Sample.oneReply in
  let context := Sample.context None false (lit "open") in
  let p :=
    {| command :=
         {| user_id := lit "UBOT"; user_name := None; channel_id := lit "C1";
            channel_name := lit "general"; trigger_id := lit "trig" |};
       prompt := lit "hi" |} in
  handleSlashCommand world Sample.imports context Sample.account Sample.slashCommand p
  = ([EvAck None (Fulfilled tt)], Fulfilled tt).
Proof.
  intros world context p.
  destruct (@self_message_dropped world Sample.imports context Sample.account
              Sample.slashCommand p (lit "UBOT"))
    as (o & rest & Hrun & _ & Hsilent).
  - vm_compute. reflexivity.
  - reflexivity.
  - intros H. vm_compute in H. discriminate H.
  - reflexivity.
  - apply Hsilent. injection Hrun as Ho _. rewrite <- Ho. vm_compute. reflexivity.
Defined.

(** X8: the handler's promise is fulfilled whenever the two calls of the
    [catch] block succeed: [runtime.error], if present, does not throw, and
    [respond] accepts the generic failure message.  Nothing is asked of any
    other collaborator. *)
Theorem fulfilled_when_fallback_succeeds w lib ctx account sc p :
  (forall h, w_respond w h genericFailure = Fulfilled tt) ->
  (forall f h msg, w_runtime_error w = Some f -> f h msg = Fulfilled tt) ->
  (handleSlashCommand w lib ctx account sc p).2 = Fulfilled tt.
Proof.
  intros Hrespond Hlog.
  unfold handleSlashCommand, asyncCall, handleSlashCommandBody, tryCatch.
  destruct (tryBlock w lib ctx account sc p []) as [evs [[]| |e]]; [reflexivity.. |].
  unfold catchBlock, runtimeError, respond, bind, perform, ret.
  fold genericFailure.
  destruct (w_runtime_error w) as [f|] eqn:Hf; cbv zeta.
  - rewrite (Hlog f _ _ eq_refl). cbn [awaited]. rewrite Hrespond. reflexivity.
  - rewrite Hrespond. reflexivity.
Qed.

Lemma fulfilled_when_fallback_succeeds_witness :
  let context := Sample.context None false (lit "open") in
  let p := Sample.slash "D1" "hi" in
  (forall h, w_respond FailingDispatch.world h genericFailure = Fulfilled tt)
  /\ (forall f h msg,
         w_runtime_error FailingDispatch.world = Some f -> f h msg = Fulfilled tt)
  /\ (handleSlashCommand FailingDispatch.world Sample.imports context Sample.account
        Sample.slashCommand p).2 = Fulfilled tt.
Proof.
  intros context p.
  assert (Hr : forall h, w_respond FailingDispatch.world h genericFailure = Fulfilled tt)
    by reflexivity.
  assert (Hl : forall f h msg,
             w_runtime_error FailingDispatch.world = Some f -> f h msg = Fulfilled tt)
    by (intros f h msg [= <-]; reflexivity).
  split; [exact Hr |]. split; [exact Hl |].
  exact (@fulfilled_when_fallback_succeeds FailingDispatch.world Sample.imports context
           Sample.account Sample.slashCommand p Hr Hl).
Defined.

(** ** Path by path *)

Lemma strEq_differs (a b : jsstr) : a <> b -> strEq a b = false.
Proof. unfold strEq. apply bool_decide_eq_false_2. Qed.

Lemma direct_is_neither (t : option jsstr) :
  isDirectMessageType t = true -> isRoomType t = false /\ isGroupDmType t = false.
Proof.
  unfold isGroupDmType, isRoomType, isDirectMessageType. intros H.
  destruct lit_channel_kinds_distinct as (Hc & Hg & Hm & _).
  apply optStrEq_true in H; subst t; simpl. unfold strEq.
  rewrite !bool_decide_eq_false_2 by (intros Heq; symmetry in Heq; contradiction).
  split; reflexivity.
Qed.

(** From a resolved channel into lines 63-265, with the tests still
    folded. *)
Ltac enter_pipeline lib account sc Hreach :=
  rewrite (run_from_resolution lib account sc Hreach);
  unfold resolutionHistory, afterChannelInfo, authorizeAndDispatch; cbv zeta.

Ltac read_pipeline :=
  unfold readStoreAllowFrom, catchPromise, readChannelAllowFromStore;
  unfold_pipeline; read_resumed; fallback_facts.

(** X9: a command refused by [ctx.isChannelAllowed] is answered "This
    channel is not allowed." straight after the channel is resolved: the
    allow-list store is not read, no user is looked up, nothing is
    dispatched, and unless that answer fails nothing else happens. *)
Theorem refused_channel_stops_early w lib ctx account sc p info :
  reachesResolution w ctx p info ->
  isChannelAllowed ctx (channelAllowedArguments p info) = false ->
  let run := handleSlashCommand w lib ctx account sc p in
  exists o rest,
    run.1 = resolutionHistory p info
              ++ EvRespond (ephemeralText "This channel is not allowed.") o :: rest
    /\ Forall fromFallback rest
    /\ (o = Fulfilled tt -> rest = [] /\ run.2 = Fulfilled tt).
Proof.
  intros Hreach Hrefused run. subst run. unfold channelAllowedArguments in Hrefused.
  enter_pipeline lib account sc Hreach. rewrite Hrefused.
  unfold resolutionHistory. read_pipeline.
  all: eexists _, _; split; [reflexivity |]; split;
    [first [assumption | constructor] | first [discriminate | intros _; split; reflexivity]].
Qed.

Lemma refused_channel_stops_early_witness :
  let world :=
    Sample.world [] (Sample.infoOfType "channel")
      {| code := lit "K"; created := true |} Sample.oneReply in
  let context :=
    {| botUserId := None; teamId := None; allowFrom := []; dmEnabled := true;
       dmPolicy := lit "open"; channelsConfig := None; defaultRequireMention := None;
       useAccessGroups := false; groupPolicy := lit "open"; textLimit := 4000;
       isChannelAllowed := fun _ => false |} in
  let p := Sample.slash "C1" "hi" in
  let info := Sample.infoOfType "channel" in
  let run :=
    handleSlashCommand world Sample.imports context Sample.account Sample.slashCommand p in
  reachesResolution world context p info
  /\ isChannelAllowed context (channelAllowedArguments p info) = false
  /\ exists o rest,
       run.1 = resolutionHistory p info
                 ++ EvRespond (ephemeralText "This channel is not allowed.") o :: rest
       /\ Forall fromFallback rest
       /\ (o = Fulfilled tt -> rest = [] /\ run.2 = Fulfilled tt).
Proof.
  intros world context p info run.
  assert (Hreach : reachesResolution world context p info)
    by (repeat split; vm_compute; reflexivity).
  split; [exact Hreach |]. split; [reflexivity |].
  exact (@refused_channel_stops_early world Sample.imports context Sample.account
           Sample.slashCommand p info Hreach eq_refl).
Defined.

Lemma lit_policies_distinct :
  lit "open" <> lit "disabled" /\ lit "open" <> lit "pairing"
  /\ lit "pairing" <> lit "disabled".
Proof. repeat split; intros H; vm_compute in H; discriminate H. Qed.

Ltac solve_member := solve [eexists; find_member | eexists _, _; find_member].

(** X10: a direct message is answered "Slack DMs are disabled." when
    [ctx.dmEnabled] is off or the DM policy is "disabled" (either one
    suffices, whatever the other says).  The store has been read by then,
    but no user is looked up, no pairing request is made and nothing is
    dispatched. *)
Theorem disabled_dm_refused w lib ctx account sc p info :
  reachesResolution w ctx p info ->
  isDirectMessageType (channelTypeOf info (command p)) = true ->
  isChannelAllowed ctx (channelAllowedArguments p info) = true ->
  dmEnabled ctx = false \/ dmPolicy ctx = lit "disabled" ->
  let run := handleSlashCommand w lib ctx account sc p in
  exists o1 o2 rest,
    run.1 = resolutionHistory p info
              ++ EvReadChannelAllowFromStore (lit "slack") o1
                 :: EvRespond (ephemeralText "Slack DMs are disabled.") o2 :: rest
    /\ Forall fromFallback rest
    /\ (o2 = Fulfilled tt -> rest = [] /\ run.2 = Fulfilled tt).
Proof.
  intros Hreach Hdm Hallowed Hoff run. subst run.
  unfold channelAllowedArguments in Hallowed.
  assert (Hcond : negb (dmEnabled ctx) || strEq (dmPolicy ctx) (lit "disabled") = true).
  { destruct Hoff as [-> | ->]; [reflexivity |].
    apply orb_true_iff. right. apply bool_decide_eq_true_2. reflexivity. }
  enter_pipeline lib account sc Hreach. rewrite Hallowed, Hdm.
  unfold directMessageBlock. rewrite Hcond.
  unfold resolutionHistory. read_pipeline.
  all: eexists _, _, _; split; [reflexivity |]; split;
    [first [assumption | constructor] | first [discriminate | intros _; split; reflexivity]].
Qed.

Lemma disabled_dm_refused_witness :
  let world :=
    Sample.world [] (Sample.infoOfType "im")
      {| code := lit "K"; created := true |} Sample.oneReply in
  let context := Sample.context None false (lit "disabled") in
  let p := Sample.slash "D1" "hi" in
  let info := Sample.infoOfType "im" in
  let run :=
    handleSlashCommand world Sample.imports context Sample.account Sample.slashCommand p in
  reachesResolution world context p info
  /\ isDirectMessageType (channelTypeOf info (command p)) = true
  /\ isChannelAllowed context (channelAllowedArguments p info) = true
  /\ (dmEnabled context = false \/ dmPolicy context = lit "disabled")
  /\ exists o1 o2 rest,
       run.1 = resolutionHistory p info
                 ++ EvReadChannelAllowFromStore (lit "slack") o1
                    :: EvRespond (ephemeralText "Slack DMs are disabled.") o2 :: rest
       /\ Forall fromFallback rest
       /\ (o2 = Fulfilled tt -> rest = [] /\ run.2 = Fulfilled tt).
Proof.
  intros world context p info run.
  assert (Hreach : reachesResolution world context p info)
    by (repeat split; vm_compute; reflexivity).
  assert (Hdm : isDirectMessageType (channelTypeOf info (command p)) = true)
    by (vm_compute; reflexivity).
  assert (Hoff : dmEnabled context = false \/ dmPolicy context = lit "disabled")
    by (right; reflexivity).
  split; [exact Hreach |]. split; [exact Hdm |]. split; [reflexivity |].
  split; [exact Hoff |].
  exact (@disabled_dm_refused world Sample.imports context Sample.account
           Sample.slashCommand p info Hreach Hdm eq_refl Hoff).
Defined.

(** X11: under any DM policy other than "open", a direct message is
    dispatched only if DMs are enabled and the sender, under the name the
    user lookup returned, matches the effective allow-list: the static
    entries followed by what the store read produced (nothing, when that
    read failed). *)
Theorem restricted_dm_dispatch_requires_allow_list w lib ctx account sc p info :
  reachesResolution w ctx p info ->
  isDirectMessageType (channelTypeOf info (command p)) = true ->
  dmPolicy ctx <> lit "open" ->
  let run := handleSlashCommand w lib ctx account sc p in
  dispatched run.1 ->
  dmEnabled ctx = true
  /\ exists o sender,
       In (EvReadChannelAllowFromStore (lit "slack") o) run.1
       /\ In (EvResolveUserName (user_id (command p)) (Fulfilled sender)) run.1
       /\ allowListMatches lib
            (normalizeAllowListLower lib
               (normalizeAllowList lib (allowFrom ctx ++ storedEntries o)))
            (user_id (command p)) (sender ≫= ui_name) = true.
Proof.
  intros Hreach Hdm Hpolicy run. subst run.
  assert (Hopen : strEq (dmPolicy ctx) (lit "open") = false)
    by (apply bool_decide_eq_false_2; exact Hpolicy).
  destruct (direct_is_neither Hdm) as [Hroom _].
  enter_pipeline lib account sc Hreach. rewrite Hdm, Hroom.
  unfold directMessageBlock. rewrite Hopen. unfold dispatched.
  unfold resolutionHistory. read_pipeline.
  all: intros (args & Hd); member Hd.
  all: match goal with
       | H : negb (dmEnabled _) || _ = false |- _ =>
           apply orb_false_elim in H; destruct H as [H _]; apply negb_false_iff in H
       end.
  all: split; [assumption |].
  all: eexists _, _; split; [find_member |]; split; [find_member |].
  all: cbn [storedEntries]; apply negb_false_iff; assumption.
Qed.

Lemma restricted_dm_dispatch_requires_allow_list_witness :
  let world :=
    Sample.world [lit "U1"] (Sample.infoOfType "im")
      {| code := lit "K"; created := true |} Sample.oneReply in
  let context := Sample.context None false (lit "pairing") in
  let p := Sample.slash "D1" "hi" in
  let info := Sample.infoOfType "im" in
  let run :=
    handleSlashCommand world Sample.imports context Sample.account Sample.slashCommand p in
  dispatched run.1
  /\ dmEnabled context = true
  /\ exists o sender,
       In (EvReadChannelAllowFromStore (lit "slack") o) run.1
       /\ In (EvResolveUserName (user_id (command p)) (Fulfilled sender)) run.1
       /\ allowListMatches Sample.imports
            (normalizeAllowListLower Sample.imports
               (normalizeAllowList Sample.imports (allowFrom context ++ storedEntries o)))
            (user_id (command p)) (sender ≫= ui_name) = true.
Proof.
  intros world context p info run.
  assert (Hreach : reachesResolution world context p info)
    by (repeat split; vm_compute; reflexivity).
  assert (Hdm : isDirectMessageType (channelTypeOf info (command p)) = true)
    by (vm_compute; reflexivity).
  assert (Hpolicy : dmPolicy context <> lit "open")
    by (intros H; vm_compute in H; discriminate H).
  assert (Hdis : dispatched run.1)
    by (eexists; vm_compute; do 5 right; left; reflexivity).
  split; [exact Hdis |].
  exact (@restricted_dm_dispatch_requires_allow_list world Sample.imports context
           Sample.account Sample.slashCommand p info Hreach Hdm Hpolicy Hdis).
Defined.

Lemma refusal_is_not_generic :
  ephemeralText "You are not authorized to use this command." <> genericFailure.
Proof. intros H. vm_compute in H. discriminate H. Qed.

(** On a path that has been read: this cannot have happened. *)
Ltac never_happened :=
  solve
    [ intros (? & H); member H
    | intros (_ & ? & ? & H); member H
    | intros (Heq & _);
      match goal with
      | Hs : strEq ?a ?b = false |- _ => exact (strEq_false Hs Heq)
      end
    | intros (Hne & _); apply Hne, strEq_true; assumption
    | intros (_ & (? & H) & _); member H;
      exfalso; apply refusal_is_not_generic; assumption ].

(** X12: a direct message that passed the generic channel check, under an
    enabled, restrictive DM policy ("pairing" or anything else that is
    neither "open" nor "disabled"), ends in exactly one of four ways: it is
    dispatched; a user lookup fails; under "pairing", a pairing request is
    made; under any other policy, the sender is answered "You are not
    authorized to use this command." and no pairing request is made. *)
Theorem restricted_dm_outcomes w lib ctx account sc p info :
  reachesResolution w ctx p info ->
  isDirectMessageType (channelTypeOf info (command p)) = true ->
  isChannelAllowed ctx (channelAllowedArguments p info) = true ->
  dmEnabled ctx = true ->
  dmPolicy ctx <> lit "disabled" ->
  dmPolicy ctx <> lit "open" ->
  let run := handleSlashCommand w lib ctx account sc p in
  let isDispatched := dispatched run.1 in
  let lookupFailed :=
    exists e, In (EvResolveUserName (user_id (command p)) (Rejected e)) run.1 in
  let pairingRequested := dmPolicy ctx = lit "pairing" /\ upserted run.1 in
  let refused :=
    dmPolicy ctx <> lit "pairing"
    /\ (exists o,
           In (EvRespond (ephemeralText "You are not authorized to use this command.") o)
              run.1)
    /\ ~ upserted run.1 in
  (isDispatched /\ ~ lookupFailed /\ ~ pairingRequested /\ ~ refused)
  \/ (lookupFailed /\ ~ isDispatched /\ ~ pairingRequested /\ ~ refused)
  \/ (pairingRequested /\ ~ isDispatched /\ ~ lookupFailed /\ ~ refused)
  \/ (refused /\ ~ isDispatched /\ ~ lookupFailed /\ ~ pairingRequested).
Proof.
  intros Hreach Hdm Hallowed Henabled Hdisabled Hopen run. subst run. cbv zeta.
  unfold channelAllowedArguments in Hallowed.
  destruct (direct_is_neither Hdm) as [Hroom _].
  apply strEq_differs in Hdisabled, Hopen.
  enter_pipeline lib account sc Hreach. rewrite Hallowed, Hdm, Hroom.
  unfold directMessageBlock. rewrite Henabled, Hdisabled, Hopen.
  unfold dispatched, upserted, resolutionHistory. read_pipeline.
  all: first
    [ left; split; [solve_member |]
    | right; left; split; [solve_member |]
    | right; right; left; split; [split; [apply strEq_true; assumption | solve_member] |]
    | right; right; right;
      split; [split; [apply strEq_false; assumption |];
              split; [solve_member | intros (req & o & Hu); member Hu] |] ].
  all: split; [never_happened |]; split; never_happened.
Qed.

Lemma restricted_dm_outcomes_witness :
  let world :=
    Sample.world [] (Sample.infoOfType "im")
      {| code := lit "K"; created := true |} Sample.oneReply in
  let context := Sample.context None false (lit "allowlist") in
  let p := Sample.slash "D1" "hi" in
  let info := Sample.infoOfType "im" in
  let run :=
    handleSlashCommand world Sample.imports context Sample.account Sample.slashCommand p in
  let isDispatched := dispatched run.1 in
  let lookupFailed :=
    exists e, In (EvResolveUserName (user_id (command p)) (Rejected e)) run.1 in
  let pairingRequested := dmPolicy context = lit "pairing" /\ upserted run.1 in
  let refused :=
    dmPolicy context <> lit "pairing"
    /\ (exists o,
           In (EvRespond (ephemeralText "You are not authorized to use this command.") o)
              run.1)
    /\ ~ upserted run.1 in
  run.1 = resolutionHistory p info
            ++ [EvReadChannelAllowFromStore (lit "slack") (Fulfilled []);
                EvResolveUserName (lit "U1") (Fulfilled None);
                EvRespond (ephemeralText "You are not authorized to use this command.")
                  (Fulfilled tt)]
  /\ ((isDispatched /\ ~ lookupFailed /\ ~ pairingRequested /\ ~ refused)
      \/ (lookupFailed /\ ~ isDispatched /\ ~ pairingRequested /\ ~ refused)
      \/ (pairingRequested /\ ~ isDispatched /\ ~ lookupFailed /\ ~ refused)
      \/ (refused /\ ~ isDispatched /\ ~ lookupFailed /\ ~ pairingRequested)).
Proof.
  intros world context p info run.
  split; [vm_compute; reflexivity |].
  apply (@restricted_dm_outcomes world Sample.imports context Sample.account
           Sample.slashCommand p info).
  - repeat split; vm_compute; reflexivity.
  - vm_compute. reflexivity.
  - reflexivity.
  - reflexivity.
  - intros H. vm_compute in H. discriminate H.
  - intros H. vm_compute in H. discriminate H.
Defined.

(** X13: under the "open" DM policy with DMs enabled, a direct message is
    dispatched unless the user lookup fails: the allow-list is not
    consulted, no pairing request is made, and no rejection message is
    sent. *)
Theorem open_dm_dispatched w lib ctx account sc p info :
  reachesResolution w ctx p info ->
  isDirectMessageType (channelTypeOf info (command p)) = true ->
  isChannelAllowed ctx (channelAllowedArguments p info) = true ->
  dmEnabled ctx = true ->
  dmPolicy ctx = lit "open" ->
  let run := handleSlashCommand w lib ctx account sc p in
  (dispatched run.1
   \/ exists e, In (EvResolveUserName (user_id (command p)) (Rejected e)) run.1)
  /\ ~ upserted run.1
  /\ (forall arg o, In (EvRespond arg o) run.1 -> arg = genericFailure).
Proof.
  intros Hreach Hdm Hallowed Henabled Hopen run. subst run.
  unfold channelAllowedArguments in Hallowed.
  destruct (direct_is_neither Hdm) as [Hroom _].
  destruct lit_policies_distinct as (Hod & _).
  assert (Hdisabled : strEq (dmPolicy ctx) (lit "disabled") = false)
    by (rewrite Hopen; apply bool_decide_eq_false_2; exact Hod).
  assert (Hopen' : strEq (dmPolicy ctx) (lit "open") = true)
    by (rewrite Hopen; apply bool_decide_eq_true_2; reflexivity).
  enter_pipeline lib account sc Hreach. rewrite Hallowed, Hdm, Hroom.
  unfold directMessageBlock. rewrite Henabled, Hdisabled, Hopen'.
  unfold dispatched, upserted, resolutionHistory. read_pipeline.
  all: split; [first [left; solve_member | right; solve_member] |].
  all: split; [intros (req & o & Hu); member Hu |].
  all: intros arg o Hr; member Hr; assumption.
Qed.

Lemma open_dm_dispatched_witness :
  let world :=
    Sample.world [] (Sample.infoOfType "im")
      {| code := lit "K"; created := true |} Sample.oneReply in
  let context := Sample.context None false (lit "open") in
  let p := Sample.slash "D1" "hi" in
  let info := Sample.infoOfType "im" in
  let run :=
    handleSlashCommand world Sample.imports context Sample.account Sample.slashCommand p in
  dispatched run.1
  /\ (dispatched run.1
      \/ exists e, In (EvResolveUserName (user_id (command p)) (Rejected e)) run.1)
  /\ ~ upserted run.1
  /\ (forall arg o, In (EvRespond arg o) run.1 -> arg = genericFailure).
Proof.
  intros world context p info run.
  split; [eexists; vm_compute; do 4 right; left; reflexivity |].
  apply (@open_dm_dispatched world Sample.imports context Sample.account
           Sample.slashCommand p info).
  - repeat split; vm_compute; reflexivity.
  - vm_compute. reflexivity.
  - reflexivity.
  - reflexivity.
  - reflexivity.
Defined.

(** X14: what is dispatched for a direct message is addressed from
    "slack:<user id>" with chat type "direct", and carries no group subject,
    no group system prompt and no skill filter. *)
Theorem dm_dispatch_carries_no_channel_data w lib ctx account sc p info args :
  reachesResolution w ctx p info ->
  isDirectMessageType (channelTypeOf info (command p)) = true ->
  In (EvDispatchCall args) (handleSlashCommand w lib ctx account sc p).1 ->
  ChatType (da_ctx args) = lit "direct"
  /\ From_ (da_ctx args) = lit "slack:" ++ user_id (command p)
  /\ GroupSubject (da_ctx args) = None
  /\ GroupSystemPrompt (da_ctx args) = None
  /\ da_skillFilter args = None.
Proof.
  intros Hreach Hdm.
  destruct (direct_is_neither Hdm) as [Hroom Hgroup].
  enter_pipeline lib account sc Hreach. rewrite Hdm, Hroom.
  unfold resolutionHistory. read_pipeline.
  all: intros Hd; member Hd; simplify_eq.
  all: unfold dispatchArgumentsOf, ctxPayloadOf;
    cbn [da_skillFilter da_ctx GroupSystemPrompt GroupSubject ChatType From_];
    rewrite Hdm, Hroom, Hgroup.
  all: repeat split; reflexivity.
Qed.

Lemma dm_dispatch_carries_no_channel_data_witness :
  let world :=
    Sample.world [] (Sample.infoOfType "im")
      {| code := lit "K"; created := true |} Sample.oneReply in
  let context := Sample.context None false (lit "open") in
  let p := Sample.slash "D1" "hi" in
  let info := Sample.infoOfType "im" in
  let args :=
    dispatchArgumentsOf Sample.imports context Sample.account Sample.slashCommand p
      info None (lit "ann") true 0%Z in
  In (EvDispatchCall args)
     (handleSlashCommand world Sample.imports context Sample.account Sample.slashCommand p).1
  /\ ChatType (da_ctx args) = lit "direct"
  /\ From_ (da_ctx args) = lit "slack:" ++ user_id (command p)
  /\ GroupSubject (da_ctx args) = None
  /\ GroupSystemPrompt (da_ctx args) = None
  /\ da_skillFilter args = None.
Proof.
  intros world context p info args.
  assert (Hin : In (EvDispatchCall args)
                  (handleSlashCommand world Sample.imports context Sample.account
                     Sample.slashCommand p).1)
    by (vm_compute; do 4 right; left; reflexivity).
  split; [exact Hin |].
  apply (@dm_dispatch_carries_no_channel_data world Sample.imports context Sample.account
           Sample.slashCommand p info args).
  - repeat split; vm_compute; reflexivity.
  - vm_compute. reflexivity.
  - exact Hin.
Defined.

(** X15: a room command is dispatched only if it passed every room gate:
    with access groups on, the resolved config does not say [allowed: false]
    and [isSlackRoomAllowedByPolicy] admits the room; and in any case the
    sender, under the name of line 170, passes [resolveSlackUserAllowed]
    against the resolved config's [users]. *)
Theorem room_dispatch_requires_gates w lib ctx account sc p info :
  reachesResolution w ctx p info ->
  isRoomType (channelTypeOf info (command p)) = true ->
  let run := handleSlashCommand w lib ctx account sc p in
  let channelConfig :=
    resolveSlackChannelConfig lib (channel_id (command p)) (info ≫= ci_name)
      (channelsConfig ctx) (defaultRequireMention ctx) in
  dispatched run.1 ->
  (useAccessGroups ctx = true ->
   (forall c, channelConfig = Some c -> allowed c = true)
   /\ isSlackRoomAllowedByPolicy lib (groupPolicy ctx)
        (channelAllowlistConfiguredOf ctx) true = true)
  /\ exists sender,
       In (EvResolveUserName (user_id (command p)) (Fulfilled sender)) run.1
       /\ resolveSlackUserAllowed lib (channelConfig ≫= users) (user_id (command p))
            (senderNameOf sender (command p)) = true.
Proof.
  intros Hreach Hroom run channelConfig. subst run channelConfig.
  pose proof (room_is_not_direct Hroom) as Hdm.
  enter_pipeline lib account sc Hreach. rewrite Hdm, Hroom.
  unfold roomBlock. cbv zeta.
  unfold dispatched, resolutionHistory. read_pipeline.
  all: intros (args & Hd); member Hd.
  all: split;
    [ intros Hgroups; try congruence
    | eexists; split; [find_member | apply negb_false_iff; assumption] ].
  all: match goal with
       | Hflag : allowedIsFalse _ = false,
         Hpolicy : negb (isSlackRoomAllowedByPolicy _ _ _ _) || _ = false |- _ =>
           cbn [negb] in Hpolicy; rewrite orb_false_r in Hpolicy;
           apply negb_false_iff in Hpolicy;
           split; [| exact Hpolicy];
           let cfg := fresh "cfg" in
           let Hcfg := fresh "Hcfg" in
           intros cfg Hcfg; rewrite Hcfg in Hflag; unfold allowedIsFalse in Hflag;
           apply negb_false_iff in Hflag; exact Hflag
       end.
Qed.

Lemma room_dispatch_requires_gates_witness :
  let p := Sample.slash "C1" "hi" in
  let run :=
    handleSlashCommand RoomExample.world Sample.imports RoomExample.context
      Sample.account Sample.slashCommand p in
  let channelConfig :=
    resolveSlackChannelConfig Sample.imports (channel_id (command p))
      (RoomExample.info ≫= ci_name) (channelsConfig RoomExample.context)
      (defaultRequireMention RoomExample.context) in
  dispatched run.1
  /\ (useAccessGroups RoomExample.context = true ->
      (forall c, channelConfig = Some c -> allowed c = true)
      /\ isSlackRoomAllowedByPolicy Sample.imports (groupPolicy RoomExample.context)
           (channelAllowlistConfiguredOf RoomExample.context) true = true)
  /\ exists sender,
       In (EvResolveUserName (user_id (command p)) (Fulfilled sender)) run.1
       /\ resolveSlackUserAllowed Sample.imports (channelConfig ≫= users)
            (user_id (command p)) (senderNameOf sender (command p)) = true.
Proof.
  intros p run channelConfig.
  assert (Hdis : dispatched run.1)
    by (eexists; vm_compute; do 4 right; left; reflexivity).
  split; [exact Hdis |].
  apply (@room_dispatch_requires_gates RoomExample.world Sample.imports
           RoomExample.context Sample.account Sample.slashCommand p RoomExample.info).
  - repeat split; vm_compute; reflexivity.
  - vm_compute. reflexivity.
  - exact Hdis.
Defined.

(** X16: what is dispatched for a room carries the resolved channel config:
    its [skills] as the skill filter and its [systemPrompt] in the group
    system prompt; it is addressed from "slack:channel:<channel id>" with
    chat type "room", and its subject is "#" followed by the channel name,
    or by the channel id when the name is missing or empty. *)
Theorem room_dispatch_carries_channel_config w lib ctx account sc p info args :
  reachesResolution w ctx p info ->
  isRoomType (channelTypeOf info (command p)) = true ->
  In (EvDispatchCall args) (handleSlashCommand w lib ctx account sc p).1 ->
  let channelConfig :=
    resolveSlackChannelConfig lib (channel_id (command p)) (info ≫= ci_name)
      (channelsConfig ctx) (defaultRequireMention ctx) in
  ChatType (da_ctx args) = lit "room"
  /\ From_ (da_ctx args) = lit "slack:channel:" ++ channel_id (command p)
  /\ da_skillFilter args = channelConfig ≫= skills
  /\ GroupSystemPrompt (da_ctx args)
     = groupSystemPromptOf (channelDescriptionOf info) channelConfig
  /\ GroupSubject (da_ctx args)
     = Some (lit "#" ++ match info ≫= ci_name with
                        | Some n => if truthy n then n else channel_id (command p)
                        | None => channel_id (command p)
                        end).
Proof.
  intros Hreach Hroom.
  pose proof (room_is_not_direct Hroom) as Hdm.
  remember (match info ≫= ci_name with
            | Some n => if truthy n then n else channel_id (command p)
            | None => channel_id (command p)
            end) as label eqn:Hlabel.
  enter_pipeline lib account sc Hreach. rewrite Hdm, Hroom.
  unfold roomBlock. cbv zeta.
  unfold resolutionHistory. read_pipeline.
  all: intros Hd; member Hd; simplify_eq.
  all: unfold dispatchArgumentsOf, ctxPayloadOf;
    cbn [da_skillFilter da_ctx GroupSystemPrompt GroupSubject ChatType From_];
    rewrite Hdm, Hroom; cbn [orb].
  all: repeat split; try reflexivity.
  all: destruct (info ≫= ci_name) as [n|]; [destruct (truthy n) |]; reflexivity.
Qed.

Lemma room_dispatch_carries_channel_config_witness :
  let p := Sample.slash "C1" "hi" in
  let args :=
    dispatchArgumentsOf Sample.imports RoomExample.context Sample.account
      Sample.slashCommand p RoomExample.info
      (Some (channel_config.resolveSlackChannelConfig (lit "C1") (Some (lit "general"))
               (channelsConfig RoomExample.context) None))
      (lit "ann") true 0%Z in
  In (EvDispatchCall args)
     (handleSlashCommand RoomExample.world Sample.imports RoomExample.context
        Sample.account Sample.slashCommand p).1
  /\ da_skillFilter args = Some [lit "search"]
  /\ GroupSystemPrompt (da_ctx args)
     = Some (lit "Channel description: Team chat"
               ++ lit (String (ascii_of_nat 10) (String (ascii_of_nat 10) EmptyString))
               ++ lit "Be brief.")
  /\ GroupSubject (da_ctx args) = Some (lit "#general").
Proof.
  intros p args.
  assert (Hin : In (EvDispatchCall args)
                  (handleSlashCommand RoomExample.world Sample.imports RoomExample.context
                     Sample.account Sample.slashCommand p).1)
    by (vm_compute; do 4 right; left; reflexivity).
  split; [exact Hin |].
  destruct (@room_dispatch_carries_channel_config RoomExample.world Sample.imports
              RoomExample.context Sample.account Sample.slashCommand p RoomExample.info
              args) as (_ & _ & Hskills & Hprompt & Hsubject).
  - repeat split; vm_compute; reflexivity.
  - vm_compute. reflexivity.
  - exact Hin.
  - rewrite Hskills, Hprompt, Hsubject. vm_compute. repeat split; reflexivity.
Defined.

(** X17: a command whose channel is of none of the known kinds (neither
    "im", nor "mpim", nor "channel"/"group", for instance because the
    channel could not be resolved) passes only the generic channel check: it
    is dispatched unless the user lookup fails, with chat type "group",
    addressed from "slack:group:<channel id>", and with no group subject, no
    group system prompt and no skill filter. *)
Theorem unknown_channel_kind_dispatched_as_group w lib ctx account sc p info :
  reachesResolution w ctx p info ->
  isDirectMessageType (channelTypeOf info (command p)) = false ->
  isRoomType (channelTypeOf info (command p)) = false ->
  isGroupDmType (channelTypeOf info (command p)) = false ->
  isChannelAllowed ctx (channelAllowedArguments p info) = true ->
  let run := handleSlashCommand w lib ctx account sc p in
  (dispatched run.1
   \/ exists e, In (EvResolveUserName (user_id (command p)) (Rejected e)) run.1)
  /\ (forall args, In (EvDispatchCall args) run.1 ->
      ChatType (da_ctx args) = lit "group"
      /\ From_ (da_ctx args) = lit "slack:group:" ++ channel_id (command p)
      /\ GroupSubject (da_ctx args) = None
      /\ GroupSystemPrompt (da_ctx args) = None
      /\ da_skillFilter args = None).
Proof.
  intros Hreach Hdm Hroom Hgroup Hallowed run. subst run.
  unfold channelAllowedArguments in Hallowed.
  enter_pipeline lib account sc Hreach. rewrite Hallowed, Hdm, Hroom.
  unfold dispatched, resolutionHistory. read_pipeline.
  all: split; [first [left; solve_member | right; solve_member] |].
  all: intros args Hd; member Hd; simplify_eq.
  all: unfold dispatchArgumentsOf, ctxPayloadOf;
    cbn [da_skillFilter da_ctx GroupSystemPrompt GroupSubject ChatType From_];
    rewrite Hdm, Hroom, Hgroup.
  all: repeat split; reflexivity.
Qed.

Lemma unknown_channel_kind_dispatched_as_group_witness :
  let world :=
    Sample.world [] None {| code := lit "K"; created := true |} Sample.oneReply in
  let context := Sample.context None true (lit "pairing") in
  let p := Sample.slash "X1" "hi" in
  let run :=
    handleSlashCommand world Sample.imports context Sample.account Sample.slashCommand p in
  (dispatched run.1
   \/ exists e, In (EvResolveUserName (user_id (command p)) (Rejected e)) run.1)
  /\ (forall args, In (EvDispatchCall args) run.1 ->
      ChatType (da_ctx args) = lit "group"
      /\ From_ (da_ctx args) = lit "slack:group:" ++ channel_id (command p)
      /\ GroupSubject (da_ctx args) = None
      /\ GroupSystemPrompt (da_ctx args) = None
      /\ da_skillFilter args = None).
Proof.
  intros world context p run.
  apply (@unknown_channel_kind_dispatched_as_group world Sample.imports context
           Sample.account Sample.slashCommand p None).
  - repeat split; vm_compute; reflexivity.
  - vm_compute. reflexivity.
  - vm_compute. reflexivity.
  - vm_compute. reflexivity.
  - reflexivity.
Defined.

(** ** How the channel description and the system prompt are put together *)

Lemma truthy_false_nil (s : jsstr) : truthy s = false -> s = [].
Proof. destruct s; [reflexivity | discriminate]. Qed.

Lemma strEq_refl (s : jsstr) : strEq s s = true.
Proof. apply bool_decide_eq_true_2. reflexivity. Qed.

(** X18: the channel description is made of the trimmed topic and the
    trimmed purpose: empty ones are left out, a purpose equal to the topic is
    not repeated, and when both remain they are joined by a newline, topic
    first. *)
Theorem channel_description_assembly (info : option ChannelInfo) :
  let topic := default [] (trim <$> (info ≫= ci_topic)) in
  let purpose := default [] (trim <$> (info ≫= ci_purpose)) in
  channelDescriptionOf info
  = if truthy topic
    then if truthy purpose && negb (strEq topic purpose)
         then topic ++ lit (String (ascii_of_nat 10) EmptyString) ++ purpose
         else topic
    else purpose.
Proof.
  intros topic purpose. subst topic purpose. unfold channelDescriptionOf.
  destruct (info ≫= ci_topic) as [t|]; destruct (info ≫= ci_purpose) as [u|];
    cbn [fmap option_fmap option_map default from_option id List.map omap list_omap truthyOpt].
  - destruct (truthy (trim t)) eqn:Ht; destruct (truthy (trim u)) eqn:Hu;
      cbn [omap list_omap andb]; unfold filterIndexed;
      cbn [filterIndexedFrom indexOf]; rewrite ?strEq_refl; cbn [fmap option_fmap option_map].
    + destruct (strEq (trim t) (trim u)) eqn:Heq; cbn [negb andb].
      * rewrite !bool_decide_eq_true_2 by reflexivity.
        rewrite bool_decide_eq_false_2 by discriminate. reflexivity.
      * rewrite !bool_decide_eq_true_2 by reflexivity. reflexivity.
    + rewrite bool_decide_eq_true_2 by reflexivity. reflexivity.
    + rewrite bool_decide_eq_true_2 by reflexivity. reflexivity.
    + symmetry. apply truthy_false_nil, Hu.
  - destruct (truthy (trim t)) eqn:Ht; cbn [omap list_omap andb truthy];
      unfold filterIndexed; cbn [filterIndexedFrom indexOf]; rewrite ?strEq_refl.
    + rewrite bool_decide_eq_true_2 by reflexivity. reflexivity.
    + reflexivity.
  - cbn [truthy]. destruct (truthy (trim u)) eqn:Hu; cbn [omap list_omap];
      unfold filterIndexed; cbn [filterIndexedFrom indexOf]; rewrite ?strEq_refl.
    + rewrite bool_decide_eq_true_2 by reflexivity. reflexivity.
    + symmetry. apply truthy_false_nil, Hu.
  - reflexivity.
Qed.

(** X19: the group system prompt is the line "Channel description: ..."
    (when the description is not empty) followed, after a blank line, by the
    trimmed [systemPrompt] of the channel config (when that is not empty);
    with neither there is no system prompt at all. *)
Theorem group_system_prompt_assembly (description : jsstr)
    (channelConfig : option SlackChannelConfigResolved) :
  let configured := default [] (trim <$> (channelConfig ≫= systemPrompt)) in
  let descriptionLine := lit "Channel description: " ++ description in
  let blankLine := lit (String (ascii_of_nat 10) (String (ascii_of_nat 10) EmptyString)) in
  groupSystemPromptOf description channelConfig
  = if truthy description
    then if truthy configured
         then Some (descriptionLine ++ blankLine ++ configured)
         else Some descriptionLine
    else if truthy configured then Some configured else None.
Proof.
  intros configured descriptionLine blankLine. subst configured descriptionLine blankLine.
  unfold groupSystemPromptOf.
  assert (Hline : truthy (lit "Channel description: " ++ description) = true)
    by (vm_compute; reflexivity).
  destruct (channelConfig ≫= systemPrompt) as [s|];
    cbn [fmap option_fmap option_map default from_option id truthyOpt].
  - destruct (truthy description); destruct (truthy (trim s)) eqn:Hs;
      cbn [omap list_omap truthyOpt]; rewrite ?Hline, ?Hs; reflexivity.
  - destruct (truthy description); cbn [omap list_omap truthyOpt truthy];
      rewrite ?Hline; reflexivity.
Qed.

(** ** Deliveries *)

Section Deliveries.

Context (w : World) (lib : Imports) (ctx : SlackMonitorContext)
        (account : ResolvedSlackAccount) (sc : SlashCommandConfig).

Lemma runDispatcher_delivers r :
  emits (deliversAsConfigured ctx sc) (runDispatcher w lib ctx sc r).
Proof.
  induction r as [payload k IH|err info_kind k IH|o]; cbn [runDispatcher].
  - apply emits_bind; [| exact IH].
    apply emits_settle, emits_perform. intros o. simpl. repeat split. lia.
  - apply emits_bind; [| exact IH].
    apply emits_settle, emits_runtimeError. intros o. exact I.
  - apply emits_perform. intros o'. exact I.
Qed.

Lemma handleSlashCommandBody_delivers p :
  emits (deliversAsConfigured ctx sc) (handleSlashCommandBody w lib ctx account sc p).
Proof.
  unfold handleSlashCommandBody. apply emits_tryCatch.
  - unfold tryBlock, afterChannelInfo, authorizeAndDispatch, directMessageBlock, roomBlock,
      readStoreAllowFrom, ack, respond, resolveChannelName, resolveUserName,
      readChannelAllowFromStore, upsertChannelPairingRequest, deliverSlackSlashReplies,
      dateNow.
    repeat first
      [ apply emits_bind; [| intros ?]
      | apply emits_when
      | apply emits_ret
      | apply emits_return
      | apply emits_catchPromise
      | apply emits_perform; intros ?; simpl; repeat split; lia
      | apply emits_perform; intros ?; exact I
      | match goal with |- emits _ (if ?c then _ else _) => destruct c end
      | match goal with
        | |- emits _ (dispatchReplyWithDispatcher _ _ _ _ _) =>
            let h := fresh "h" in
            intros h; unfold dispatchReplyWithDispatcher;
            match goal with
            | |- context [runDispatcher ?w' ?lib' ?ctx' ?sc' ?r ?h'] =>
                pose proof (@runDispatcher_delivers r h');
                destruct (runDispatcher w' lib' ctx' sc' r h') as [? ?]
            end;
            simpl in *; constructor; [exact I | assumption]
        end
      | intros ?; constructor ].
  - intros e. apply emits_catchBlock. intros [] Hev; try contradiction; exact I.
Qed.

End Deliveries.

(** X20: every delivery made during a run, whether it forwards a reply of
    the dispatcher or reports that there was none, carries at most one reply
    and is made with the configured visibility ([slashCommand.ephemeral]) and
    text limit ([ctx.textLimit]). *)
Theorem deliveries_as_configured w lib ctx account sc p args o :
  In (EvDeliver args o) (handleSlashCommand w lib ctx account sc p).1 ->
  length (replies args) <= 1
  /\ dl_ephemeral args = sc_ephemeral sc
  /\ dl_textLimit args = textLimit ctx.
Proof.
  unfold handleSlashCommand. rewrite asyncCall_trace. intros Hin.
  exact (in_class (handleSlashCommandBody_delivers w lib ctx account sc p []) Hin).
Qed.

Lemma deliveries_as_configured_witness :
  let world :=
    Sample.world [] (Sample.infoOfType "im")
      {| code := lit "K"; created := true |} Sample.oneReply in
  let context := Sample.context None false (lit "open") in
  let p := Sample.slash "D1" "hi" in
  let args :=
    {| replies := [{| reply_text := Some (lit "hello") |}];
       dl_ephemeral := true; dl_textLimit := 4000 |} in
  In (EvDeliver args (Fulfilled tt))
     (handleSlashCommand world Sample.imports context Sample.account Sample.slashCommand p).1
  /\ length (replies args) <= 1
  /\ dl_ephemeral args = sc_ephemeral Sample.slashCommand
  /\ dl_textLimit args = textLimit context.
Proof.
  intros world context p args.
  assert (Hin : In (EvDeliver args (Fulfilled tt))
                  (handleSlashCommand world Sample.imports context Sample.account
                     Sample.slashCommand p).1)
    by (vm_compute; do 5 right; left; reflexivity).
  split; [exact Hin |].
  exact (@deliveries_as_configured world Sample.imports context Sample.account
           Sample.slashCommand p args (Fulfilled tt) Hin).
Defined.

(** ** Registration *)

Lemma lit_empty : lit "" = [].
Proof. vm_compute. reflexivity. Qed.

Lemma blank_trim (s : jsstr) : blank (trim s) <-> blank s.
Proof.
  split.
  - intros H. apply trim_falsy_iff. unfold trim, trimEnd in *.
    unfold blank in H. apply Forall_rev in H. rewrite rev_involutive in H.
    apply trimStart_nil_iff in H. rewrite trimStart_idempotent in H.
    rewrite H. reflexivity.
  - intros H. apply trim_falsy_iff in H. apply truthy_false_nil in H. rewrite H.
    constructor.
Qed.

(** X21: the configured slash command is registered exactly when it is
    enabled and there are no native commands to register; native commands,
    when there are any, are registered under "/" followed by their name and
    displace it; and the line "slack: slash commands disabled" is logged
    exactly when nothing is registered. *)
Theorem native_commands_displace_slash_command (inputs : RegistrationInputs)
    (sc : SlashCommandConfig) :
  let native := if nativeEnabled inputs then nativeSpecs inputs else [] in
  let matchers := List.map reg_matcher (registerCommands inputs sc).1 in
  let logged := (registerCommands inputs sc).2 in
  (forall name,
      In (SlashCommandMatcher name) matchers
      <-> name = sc_name sc /\ sc_enabled sc = true /\ native = [])
  /\ (forall name,
         In (ExactCommand name) matchers
         <-> exists c, In c native /\ name = lit "/" ++ nc_name c)
  /\ (matchers = [] <-> logged = [lit "slack: slash commands disabled"])
  /\ (matchers <> [] -> logged = []).
Proof.
  intros native matchers logged. subst matchers logged. unfold registerCommands.
  fold native. destruct native as [|c rest] eqn:Hnative.
  - rewrite bool_decide_eq_false_2 by (simpl; lia).
    destruct (sc_enabled sc); cbn [fst snd List.map reg_matcher].
    + split; [| split; [| split]].
      * intros name. split.
        -- intros [H|[]]. injection H as <-. auto.
        -- intros (-> & _ & _). left. reflexivity.
      * intros name. split.
        -- intros [H|[]]. discriminate H.
        -- intros (c & [] & _).
      * split; discriminate.
      * reflexivity.
    + split; [| split; [| split]].
      * intros name. split.
        -- intros [].
        -- intros (_ & H & _). discriminate H.
      * intros name. split.
        -- intros [].
        -- intros (c & [] & _).
      * split; reflexivity.
      * intros H. contradiction H. reflexivity.
  - rewrite bool_decide_eq_true_2 by (simpl; lia).
    cbn [fst snd]. rewrite map_map. cbn [reg_matcher].
    split; [| split; [| split]].
    + intros name. split.
      * intros H. apply in_map_iff in H as (c' & Hc' & _). discriminate Hc'.
      * intros (_ & _ & H). discriminate H.
    + intros name. split.
      * intros H. apply in_map_iff in H as (c' & Hc' & Hin).
        injection Hc' as <-. exists c'. split; [exact Hin | reflexivity].
      * intros (c' & Hin & ->). apply in_map_iff. exists c'.
        split; [reflexivity | exact Hin].
    + split; discriminate.
    + reflexivity.
Qed.

Lemma run_head w lib ctx account sc p :
  exists arg o rest,
    (handleSlashCommand w lib ctx account sc p).1 = EvAck arg o :: rest
    /\ arg = (if truthy (trim (prompt p)) then None
              else Some (ephemeralText "Message required.")).
Proof.
  destruct (truthy (trim (prompt p))) eqn:Hp.
  - destruct (run_begins_with_call (EvAck None) (fun h => w_ack w h None)
              (fun _ => bind (when (isSelfMessage ctx (command p)) return_)
                 (fun _ => bind (resolveChannelName w (channel_id (command p)))
                    (afterChannelInfo w lib ctx account sc p)))
              (catchBlock w lib)) as (rest & Hrun & _).
    exists None, (w_ack w [] None), rest. split; [| reflexivity]. rewrite <- Hrun.
    unfold handleSlashCommand, handleSlashCommandBody, tryBlock. rewrite Hp. reflexivity.
  - unfold_entry. rewrite Hp. simpl.
    destruct (w_ack w [] (Some (ephemeralText "Message required."))) as [[]|e]; simpl.
    + eexists _, _, _. split; reflexivity.
    + destruct (catchBlock w lib e _) as [evs [[]| |e']]; eexists _, _, _; split; reflexivity.
Qed.

Lemma prompt_discipline w lib ctx account sc p :
  let run := handleSlashCommand w lib ctx account sc p in
  (blank (prompt p) ->
   (exists o rest,
       run.1 = EvAck (Some (ephemeralText "Message required.")) o :: rest)
   /\ ~ dispatched run.1)
  /\ (~ blank (prompt p) -> exists o rest, run.1 = EvAck None o :: rest)
  /\ (forall args, In (EvDispatchCall args) run.1 -> Body (da_ctx args) = prompt p).
Proof.
  intros run. subst run.
  destruct (run_head w lib ctx account sc p) as (arg & o & rest & Hrun & Harg).
  destruct (run_discipline w lib ctx account sc p) as (_ & Hd & _ & Hb & _).
  split; [| split].
  - intros Hblank. apply trim_falsy_iff in Hblank.
    rewrite Hblank in Harg. subst arg. split; [exists o, rest; exact Hrun |].
    intros Hdis. destruct (Hd Hdis) as (Htruthy & _). congruence.
  - intros Hnot. destruct (truthy (trim (prompt p))) eqn:Ht.
    + subst arg. exists o, rest. exact Hrun.
    + exfalso. apply Hnot, trim_falsy_iff, Ht.
  - intros args Hin. destruct (Hb args Hin) as [Hbody _]. exact Hbody.
Qed.

(** X22: when the configured slash command is the one registered, its
    listener hands the handler the trimmed text of the command.  A command
    without text, or with blank text, is therefore answered "Message
    required." and never dispatched; any other is acknowledged plainly, and
    what may be dispatched is the trimmed text. *)
Theorem slash_command_listener w lib ctx account (inputs : RegistrationInputs)
    (sc : SlashCommandConfig) (cmd : CommandEvent) :
  (if nativeEnabled inputs then nativeSpecs inputs else []) = [] ->
  sc_enabled sc = true ->
  exists r,
    (registerCommands inputs sc).1 = [r]
    /\ let run := listen w lib ctx account sc r cmd in
       let text := default [] (ce_text cmd) in
       (blank text ->
        (exists o rest,
            run.1 = EvAck (Some (ephemeralText "Message required.")) o :: rest)
        /\ ~ dispatched run.1)
       /\ (~ blank text -> exists o rest, run.1 = EvAck None o :: rest)
       /\ (forall args, In (EvDispatchCall args) run.1 -> Body (da_ctx args) = trim text).
Proof.
  intros Hnative Henabled. unfold registerCommands. rewrite Hnative, Henabled.
  rewrite bool_decide_eq_false_2 by (simpl; lia). cbn [fst].
  eexists. split; [reflexivity |]. unfold listen. cbn [reg_prompt ce_command].
  set (handed := match ce_text cmd with Some t => trim t | None => lit "" end).
  assert (Hhanded : blank handed <-> blank (default [] (ce_text cmd))).
  { subst handed. destruct (ce_text cmd) as [t|]; cbn [default from_option id].
    - apply blank_trim.
    - rewrite lit_empty. reflexivity. }
  assert (Htrim : handed = trim (default [] (ce_text cmd))).
  { subst handed. destruct (ce_text cmd) as [t|]; cbn [default from_option id];
      [reflexivity | vm_compute; reflexivity]. }
  destruct (prompt_discipline w lib ctx account sc
              {| command := ce_command cmd; prompt := handed |})
    as (Hblank & Hplain & Hbody).
  cbn [prompt] in Hblank, Hplain, Hbody.
  split; [| split].
  - intros H. apply Hblank, Hhanded, H.
  - intros H. apply Hplain. intros H'. apply H, Hhanded, H'.
  - intros args Hin. rewrite (Hbody args Hin). exact Htrim.
Qed.

Lemma slash_command_listener_witness :
  let inputs :=
    {| nativeEnabled := false; nativeSpecs := [{| nc_name := lit "status" |}];
       buildCommandText := fun name _ => lit "/" ++ name |} in
  let world :=
    Sample.world [] (Sample.infoOfType "im")
      {| code := lit "K"; created := true |} Sample.oneReply in
  let context := Sample.context None false (lit "open") in
  let cmd := {| ce_command := command (Sample.slash "D1" ""); ce_text := Some (lit "  ") |} in
  (if nativeEnabled inputs then nativeSpecs inputs else []) = []
  /\ sc_enabled Sample.slashCommand = true
  /\ exists r,
       (registerCommands inputs Sample.slashCommand).1 = [r]
       /\ let run :=
            listen world Sample.imports context Sample.account Sample.slashCommand r cmd in
          let text := default [] (ce_text cmd) in
          (blank text ->
           (exists o rest,
               run.1 = EvAck (Some (ephemeralText "Message required.")) o :: rest)
           /\ ~ dispatched run.1)
          /\ (~ blank text -> exists o rest, run.1 = EvAck None o :: rest)
          /\ (forall args, In (EvDispatchCall args) run.1 ->
              Body (da_ctx args) = trim text).
Proof.
  intros inputs world context cmd.
  split; [reflexivity |]. split; [reflexivity |].
  exact (@slash_command_listener world Sample.imports context Sample.account inputs
           Sample.slashCommand cmd eq_refl eq_refl).
Defined.

(** X23: every native command, when native commands are enabled, is
    registered under "/" followed by its name, and its listener hands the
    handler the text built by [buildCommandText] from that name and the
    command's text, untrimmed.  A blank built text is answered "Message
    required." and never dispatched; what may be dispatched is the built
    text itself. *)
Theorem native_command_listener w lib ctx account (inputs : RegistrationInputs)
    (sc : SlashCommandConfig) (c : NativeCommandSpec) (cmd : CommandEvent) :
  nativeEnabled inputs = true ->
  In c (nativeSpecs inputs) ->
  exists r,
    In r (registerCommands inputs sc).1
    /\ reg_matcher r = ExactCommand (lit "/" ++ nc_name c)
    /\ let run := listen w lib ctx account sc r cmd in
       let text := buildCommandText inputs (nc_name c) (ce_text cmd) in
       (blank text ->
        (exists o rest,
            run.1 = EvAck (Some (ephemeralText "Message required.")) o :: rest)
        /\ ~ dispatched run.1)
       /\ (~ blank text -> exists o rest, run.1 = EvAck None o :: rest)
       /\ (forall args, In (EvDispatchCall args) run.1 -> Body (da_ctx args) = text).
Proof.
  intros Henabled Hin. unfold registerCommands. rewrite Henabled.
  rewrite bool_decide_eq_true_2
    by (destruct (nativeSpecs inputs); [destruct Hin | simpl; lia]).
  cbn [fst].
  eexists. split; [| split].
  - apply in_map_iff. exists c. split; [reflexivity | exact Hin].
  - reflexivity.
  - unfold listen. cbn [reg_prompt ce_command].
    exact (prompt_discipline w lib ctx account sc
             {| command := ce_command cmd;
                prompt := buildCommandText inputs (nc_name c) (ce_text cmd) |}).
Qed.

Lemma native_command_listener_witness :
  let inputs :=
    {| nativeEnabled := true; nativeSpecs := [{| nc_name := lit "status" |}];
       buildCommandText :=
         fun name text => lit "/" ++ name ++ default [] (text ≫= fun t => Some (lit " " ++ t)) |} in
  let world :=
    Sample.world [] (Sample.infoOfType "im")
      {| code := lit "K"; created := true |} Sample.oneReply in
  let context := Sample.context None false (lit "open") in
  let c := {| nc_name := lit "status" |} in
  let cmd := {| ce_command := command (Sample.slash "D1" ""); ce_text := Some (lit "now") |} in
  nativeEnabled inputs = true
  /\ In c (nativeSpecs inputs)
  /\ exists r,
       In r (registerCommands inputs Sample.slashCommand).1
       /\ reg_matcher r = ExactCommand (lit "/" ++ nc_name c)
       /\ let run :=
            listen world Sample.imports context Sample.account Sample.slashCommand r cmd in
          let text := buildCommandText inputs (nc_name c) (ce_text cmd) in
          (blank text ->
           (exists o rest,
               run.1 = EvAck (Some (ephemeralText "Message required.")) o :: rest)
           /\ ~ dispatched run.1)
          /\ (~ blank text -> exists o rest, run.1 = EvAck None o :: rest)
          /\ (forall args, In (EvDispatchCall args) run.1 ->
              Body (da_ctx args) = text).
Proof.
  intros inputs world context c cmd.
  split; [reflexivity |]. split; [left; reflexivity |].
  exact (@native_command_listener world Sample.imports context Sample.account inputs
           Sample.slashCommand c cmd eq_refl (or_introl eq_refl)).
Defined.

(** ** When the allow-list store cannot be read *)

(** Reading what remains of a run when the answer [H] of one collaborator is
    known. *)
Ltac read_resumed_knowing H :=
  match goal with
  | |- context [resume ?w ?lib ?h ?m] =>
      let t := fresh "t" in
      let out := fresh "out" in
      let Hrun := fresh "Hrun" in
      destruct (resume w lib h m) as [t out] eqn:Hrun;
      cbn [fst snd]; revert t out Hrun
  end;
  unfold resume, tryCatch; simpl; rewrite H; simpl; repeat run_step;
  intros ? ? [= <- <-].

Section StoreFailure.

Context (w : World) (lib : Imports) (ctx : SlackMonitorContext)
        (account : ResolvedSlackAccount) (sc : SlashCommandConfig).

(** A store read in the trace tells how the run got there. *)
Lemma store_read_reached p channel o :
  In (EvReadChannelAllowFromStore channel o) (handleSlashCommand w lib ctx account sc p).1 ->
  exists info,
    reachesResolution w ctx p info
    /\ isChannelAllowed ctx (channelAllowedArguments p info) = true
    /\ w_readChannelAllowFromStore w (resolutionHistory p info) (lit "slack") = o.
Proof.
  unfold reachesResolution, resolutionHistory, channelAllowedArguments.
  read_to_pipeline.
  all: intros Hin; member Hin.
  all: simplify_eq.
  all: repeat match goal with u : unit |- _ => destruct u end.
  all: eexists; split;
    [ repeat split; first [eassumption | apply negb_false_iff; eassumption] |].
  all: split; [apply negb_false_iff; eassumption | eassumption].
Qed.

(** After a failed store read the [try] block goes on. *)
Lemma store_failure_proceeds p info e :
  reachesResolution w ctx p info ->
  isChannelAllowed ctx (channelAllowedArguments p info) = true ->
  w_readChannelAllowFromStore w (resolutionHistory p info) (lit "slack") = Rejected e ->
  exists next rest,
    (handleSlashCommand w lib ctx account sc p).1
    = resolutionHistory p info
        ++ EvReadChannelAllowFromStore (lit "slack") (Rejected e) :: next :: rest
    /\ proceedsAfterStoreRead (command p) next.
Proof.
  intros Hreach Hallowed Hstore.
  unfold channelAllowedArguments in Hallowed. unfold resolutionHistory in Hstore.
  enter_pipeline lib account sc Hreach. rewrite Hallowed.
  unfold resolutionHistory.
  unfold readStoreAllowFrom, catchPromise, readChannelAllowFromStore. unfold_pipeline.
  read_resumed_knowing Hstore.
  all: eexists _, _; split; [reflexivity |]; cbn [proceedsAfterStoreRead]; auto.
Qed.

(** After a failed store read, a restricted direct message is decided on the
    static allow-list alone. *)
Lemma store_failure_decision p info e next rest sender :
  reachesResolution w ctx p info ->
  isChannelAllowed ctx (channelAllowedArguments p info) = true ->
  w_readChannelAllowFromStore w (resolutionHistory p info) (lit "slack") = Rejected e ->
  isDirectMessageType (channelTypeOf info (command p)) = true ->
  dmPolicy ctx <> lit "open" ->
  let run := handleSlashCommand w lib ctx account sc p in
  run.1 = resolutionHistory p info
            ++ EvReadChannelAllowFromStore (lit "slack") (Rejected e) :: next :: rest ->
  next = EvResolveUserName (user_id (command p)) (Fulfilled sender) ->
  if allowListMatches lib
       (normalizeAllowListLower lib (normalizeAllowList lib (allowFrom ctx)))
       (user_id (command p)) (sender ≫= ui_name)
  then ~ upserted run.1
       /\ (forall arg o, In (EvRespond arg o) run.1 -> arg = genericFailure)
       /\ exists o rest', rest = EvResolveUserName (user_id (command p)) o :: rest'
  else ~ dispatched run.1
       /\ if strEq (dmPolicy ctx) (lit "pairing")
          then exists req o rest', rest = EvUpsertChannelPairingRequest req o :: rest'
          else exists o rest',
              rest = EvRespond (ephemeralText "You are not authorized to use this command.")
                       o :: rest'.
Proof.
  intros Hreach Hallowed Hstore Hdm Hpolicy run. subst run.
  unfold channelAllowedArguments in Hallowed. unfold resolutionHistory in Hstore.
  destruct (direct_is_neither Hdm) as [Hroom _].
  apply strEq_differs in Hpolicy.
  enter_pipeline lib account sc Hreach. rewrite Hallowed, Hdm, Hroom.
  unfold directMessageBlock. rewrite Hpolicy.
  unfold dispatched, upserted, resolutionHistory.
  unfold readStoreAllowFrom, catchPromise, readChannelAllowFromStore. unfold_pipeline.
  read_resumed_knowing Hstore. all: fallback_facts.
  all: intros Hrun Hnext; simpl in Hrun; simplify_eq.
  all: unfold effectiveAllowFromLowerOf, effectiveAllowFromOf in *; rewrite app_nil_r in *.
  all: repeat match goal with
         | H : negb _ = true |- _ => apply negb_true_iff in H
         | H : negb _ = false |- _ => apply negb_false_iff in H
         end.
  all: try congruence.
  all: first
    [ split; [intros (req & o & Hu); member Hu |];
      split; [intros arg o Hr; member Hr; assumption | eexists _, _; reflexivity]
    | split; [intros (args & Hd); member Hd |];
      first [eexists _, _, _; reflexivity | eexists _, _; reflexivity] ].
Qed.

End StoreFailure.

(** C6: when the allow-list store read fails, the [try] block goes on: the
    next call is the one lines 89-169 make first (a refusal of the direct
    message or of the room, or the lookup of the sender), not the [catch]
    block.  The empty list takes the place of the stored entries, so a direct
    message under a restrictive policy is decided on the normalized
    [ctx.allowFrom] alone: a sender it matches is neither refused nor asked
    to pair, and the run goes on to line 169; a sender it does not match is
    not dispatched, and is asked to pair or is refused as the policy says. *)
Theorem store_failure_degrades_to_static_allow_list w lib ctx account sc p channel e :
  let run := handleSlashCommand w lib ctx account sc p in
  let cmd := command p in
  In (EvReadChannelAllowFromStore channel (Rejected e)) run.1 ->
  exists info next rest,
    reachesResolution w ctx p info
    /\ run.1 = resolutionHistory p info
                 ++ EvReadChannelAllowFromStore (lit "slack") (Rejected e) :: next :: rest
    /\ proceedsAfterStoreRead cmd next
    /\ (isDirectMessageType (channelTypeOf info cmd) = true ->
        dmPolicy ctx <> lit "open" ->
        forall sender,
          next = EvResolveUserName (user_id cmd) (Fulfilled sender) ->
          if allowListMatches lib
               (normalizeAllowListLower lib (normalizeAllowList lib (allowFrom ctx)))
               (user_id cmd) (sender ≫= ui_name)
          then ~ upserted run.1
               /\ (forall arg o, In (EvRespond arg o) run.1 -> arg = genericFailure)
               /\ exists o rest', rest = EvResolveUserName (user_id cmd) o :: rest'
          else ~ dispatched run.1
               /\ if strEq (dmPolicy ctx) (lit "pairing")
                  then exists req o rest',
                      rest = EvUpsertChannelPairingRequest req o :: rest'
                  else exists o rest',
                      rest = EvRespond
                               (ephemeralText "You are not authorized to use this command.")
                               o :: rest').
Proof.
  intros run cmd Hin. subst run cmd.
  destruct (store_read_reached Hin) as (info & Hreach & Hallowed & Hstore).
  destruct (store_failure_proceeds lib account sc Hreach Hallowed Hstore)
    as (next & rest & Hrun & Hnext).
  exists info, next, rest.
  split; [exact Hreach |]. split; [exact Hrun |]. split; [exact Hnext |].
  intros Hdm Hpolicy sender Hsender.
  exact (store_failure_decision Hreach Hallowed Hstore Hdm Hpolicy Hrun Hsender).
Qed.

Lemma store_failure_degrades_to_static_allow_list_witness :
  let p := Sample.slash "D1" "hi" in
  let cmd := command p in
  let run :=
    handleSlashCommand C6Example.world Sample.imports C6Example.context Sample.account
      Sample.slashCommand p in
  In (EvReadChannelAllowFromStore (lit "slack") (Rejected C6Example.unreadable)) run.1
  /\ dispatched run.1
  /\ exists info next rest,
       reachesResolution C6Example.world C6Example.context p info
       /\ run.1 = resolutionHistory p info
                    ++ EvReadChannelAllowFromStore (lit "slack")
                         (Rejected C6Example.unreadable) :: next :: rest
       /\ proceedsAfterStoreRead cmd next
       /\ (isDirectMessageType (channelTypeOf info cmd) = true ->
           dmPolicy C6Example.context <> lit "open" ->
           forall sender,
             next = EvResolveUserName (user_id cmd) (Fulfilled sender) ->
             if allowListMatches Sample.imports
                  (normalizeAllowListLower Sample.imports
                     (normalizeAllowList Sample.imports (allowFrom C6Example.context)))
                  (user_id cmd) (sender ≫= ui_name)
             then ~ upserted run.1
                  /\ (forall arg o, In (EvRespond arg o) run.1 -> arg = genericFailure)
                  /\ exists o rest', rest = EvResolveUserName (user_id cmd) o :: rest'
             else ~ dispatched run.1
                  /\ if strEq (dmPolicy C6Example.context) (lit "pairing")
                     then exists req o rest',
                         rest = EvUpsertChannelPairingRequest req o :: rest'
                     else exists o rest',
                         rest = EvRespond
                                  (ephemeralText
                                     "You are not authorized to use this command.")
                                  o :: rest').
Proof.
  intros p cmd run.
  assert (Hin : In (EvReadChannelAllowFromStore (lit "slack")
                      (Rejected C6Example.unreadable)) run.1)
    by (vm_compute; do 2 right; left; reflexivity).
  split; [exact Hin |].
  split; [eexists; vm_compute; do 5 right; left; reflexivity |].
  exact (@store_failure_degrades_to_static_allow_list C6Example.world Sample.imports
           C6Example.context Sample.account Sample.slashCommand p (lit "slack")
           C6Example.unreadable Hin).
Defined.
